(** * plot_eval_results.py: file selection, series extraction, rolling
      averages and the printed summary

    The script is one straight-line module.  This development embeds its
    data-handling steps as functions over explicit inputs:

    - the list returned by [glob.glob] (lines 9-15) is an argument of
      [selectLatestFile];
    - the object returned by [json.load] (line 20) is a [value];
    - Python exceptions are the [Raise] branch of [result];
    - of matplotlib only the length test of [plot(x, y)] is modelled; the
      other calls draw the lists computed here.

    Numbers: a Python [int] is a [Z]; a Python [float] is a binary64 value,
    a [spec_float] of the Standard Library with [SFadd], [SFmul] and [SFdiv]
    at precision 53 (IEEE 754, rounding to nearest, ties to even).  The
    convolution is written once over an [Arithmetic]: at binary64 it is what
    the script computes, at the rationals it is what the formula means. *)

From Stdlib Require Import List Bool Arith ZArith QArith Qabs Lia.
From Stdlib Require Import Ascii String.
From Stdlib Require Decimal DecimalString.
From Stdlib Require Import SpecFloat.
From Stdlib Require Import Permutation Sorted.
Import ListNotations.

Local Close Scope Q_scope.
Local Open Scope string_scope.
Local Open Scope list_scope.

(** ** Exceptions *)

Inductive exn : Type :=
| FileNotFoundError
| JSONDecodeError
| KeyError (key : string)
| TypeError
| AttributeError
| ValueError
| IndexError
| OverflowError.

Inductive result (A : Type) : Type :=
| Ok (a : A)
| Raise (e : exn).

Arguments Ok {A} a.
Arguments Raise {A} e.

Definition bind {A B : Type} (m : result A) (k : A -> result B) : result B :=
  match m with
  | Ok a => k a
  | Raise e => Raise e
  end.

Notation "x <- m ;; k" := (bind m (fun x => k))
  (at level 61, m at next level, right associativity).

(** [[f(x) for x in xs]]: evaluation left to right, the first exception
    aborts the comprehension. *)
Fixpoint comprehension {A B : Type} (f : A -> result B) (xs : list A)
  : result (list B) :=
  match xs with
  | [] => Ok []
  | x :: xs' =>
      y <- f x ;;
      ys <- comprehension f xs' ;;
      Ok (y :: ys)
  end.

(** ** Python string methods used by the script *)

Module Str.

(** [s.split(sep)] for a separator of one character: the pieces between
    the occurrences of [sep], never an empty list. *)
Fixpoint split (sep : ascii) (s : string) : list string :=
  match s with
  | EmptyString => [EmptyString]
  | String c r =>
      if Ascii.eqb c sep then EmptyString :: split sep r
      else match split sep r with
           | [] => [String c EmptyString]
           | h :: t => String c h :: t
           end
  end.

(** [xs[-1]] on a list that [split] returned. *)
Definition last_piece (xs : list string) : string := last xs EmptyString.

(** [s.replace(old, new)] for a non-empty [old]: occurrences are found
    left to right and do not overlap; [skip] counts the characters of a
    matched occurrence that are still to be dropped. *)
Fixpoint replace_from (old new : string) (skip : nat) (s : string) : string :=
  match s with
  | EmptyString => EmptyString
  | String c r =>
      match skip with
      | S k => replace_from old new k r
      | O =>
          if prefix old s
          then new ++ replace_from old new (String.length old - 1) r
          else String c (replace_from old new 0 r)
      end
  end.

Definition replace (old new s : string) : string := replace_from old new 0 s.

(** Membership of a character. *)
Fixpoint contains (c : ascii) (s : string) : bool :=
  match s with
  | EmptyString => false
  | String d r => Ascii.eqb d c || contains c r
  end.

(** [s.removesuffix(suf)]: used only to phrase "extension stripped". *)
Definition removesuffix (suf s : string) : string :=
  let n := String.length s - String.length suf in
  if String.eqb (substring n (String.length suf) s) suf
  then substring 0 n s else s.

End Str.

(** ** Lines 9-18: choosing the input file *)

(** The sort key of line 14, [x.split('-')[-1].replace('.json', '')]. *)
Definition sort_key (x : string) : string :=
  Str.replace ".json" "" (Str.last_piece (Str.split "-" x)).

(** [list.sort(key=..., reverse=True)] is a stable sort into descending key
    order: elements with equal keys keep their original relative order.
    [insert_desc x l] puts [x], which precedes every element of [l] in the
    original list, in front of the first element whose key is not greater. *)
Section Sort.
Context {A : Type} (key : A -> string).

Fixpoint insert_desc (x : A) (l : list A) : list A :=
  match l with
  | [] => [x]
  | y :: l' =>
      if String.ltb (key x) (key y) then y :: insert_desc x l'
      else x :: y :: l'
  end.

Fixpoint sort_desc (l : list A) : list A :=
  match l with
  | [] => []
  | x :: l' => insert_desc x (sort_desc l')
  end.

(** Descending: every element is followed by keys that are not greater. *)
Definition desc (x y : A) : Prop := String.leb (key y) (key x) = true.

(** The head of the sorted list, computed in one pass from the right: a
    later element replaces the current choice only with a strictly
    greater key. *)
Fixpoint first_max (l : list A) : option A :=
  match l with
  | [] => None
  | x :: l' =>
      match first_max l' with
      | None => Some x
      | Some y => if String.ltb (key x) (key y) then Some y else Some x
      end
  end.
End Sort.

(** Lines 9-15.  [eval_files] is what [glob.glob] returned. *)
Definition selectLatestFile (eval_files : list string) : result string :=
  match eval_files with
  | [] => Raise FileNotFoundError
  | _ :: _ =>
      match sort_desc sort_key eval_files with
      | json_file_path :: _ => Ok json_file_path
      | [] => Raise IndexError
      end
  end.

(** Line 18. *)
Definition timestamp_part (json_file_path : string) : string :=
  sort_key json_file_path.

(** The selection rule in the words of the specification: the text after the
    last ['-'] with the [.json] extension stripped. *)
Definition timestamp_segment (x : string) : string :=
  Str.removesuffix ".json" (Str.last_piece (Str.split "-" x)).


(** ** Lines 19-34: the loaded document and the per-run lists *)

(** What [json.load] builds: [None], [bool], [int], [float] (binary64,
    with the infinities and NaN that the decoder accepts), [str], [list]
    and [dict] with string keys (an association list whose keys are
    distinct; lookup takes the first binding). *)
#[warnings="-register-all"]
Inductive value : Type :=
| VNone
| VBool (b : bool)
| VInt (z : Z)
| VFloat (x : spec_float)
| VStr (s : string)
| VList (xs : list value)
| VDict (items : list (string * value)).

Fixpoint lookup (k : string) (items : list (string * value)) : option value :=
  match items with
  | [] => None
  | (k', v) :: items' => if String.eqb k' k then Some v else lookup k items'
  end.

(** [obj[k]] for a string [k]: a dict raises [KeyError] on a missing key,
    every other type raises [TypeError]. *)
Definition getitem (obj : value) (k : string) : result value :=
  match obj with
  | VDict items =>
      match lookup k items with
      | Some v => Ok v
      | None => Raise (KeyError k)
      end
  | _ => Raise TypeError
  end.

(** [for x in obj]: a list yields its elements, a dict its keys, a string
    its characters; the other types are not iterable. *)
Definition iterate (obj : value) : result (list value) :=
  match obj with
  | VList xs => Ok xs
  | VDict items => Ok (map (fun kv => VStr (fst kv)) items)
  | VStr s => Ok (map (fun c => VStr (String c EmptyString)) (list_ascii_of_string s))
  | _ => Raise TypeError
  end.

(** [obj.replace(old, new)]: only [str] has the method. *)
Definition str_replace (obj : value) (old new : string) : result string :=
  match obj with
  | VStr s => Ok (Str.replace old new s)
  | _ => Raise AttributeError
  end.

(** The eight lists of lines 25-34. *)
Record series (datetime : Type) : Type := mkSeries {
  run_numbers : list value;
  scores : list value;
  timestamps : list datetime;
  nodes_created : list value;
  edges_created : list value;
  property_coverage : list value;
  relationship_accuracy : list value;
  properties_per_node : list value
}.

Arguments mkSeries {datetime}.
Arguments run_numbers {datetime}.
Arguments scores {datetime}.
Arguments timestamps {datetime}.
Arguments nodes_created {datetime}.
Arguments edges_created {datetime}.
Arguments property_coverage {datetime}.
Arguments relationship_accuracy {datetime}.
Arguments properties_per_node {datetime}.

Definition is_number (v : value) : bool :=
  match v with
  | VInt _ | VFloat _ => true
  | _ => false
  end.

Section Extraction.
(** [datetime.fromisoformat] belongs to the Python library: it is a
    parameter, a function from the text to a [datetime] or [ValueError]. *)
Variable datetime : Type.
Variable fromisoformat : string -> result datetime.

(** Line 27, for one run:
    [datetime.fromisoformat(run['timestamp'].replace('Z', '+00:00'))]. *)
Definition parse_timestamp (timestamp : value) : result datetime :=
  s <- str_replace timestamp "Z" "+00:00" ;;
  fromisoformat s.

(** The element of the comprehension of line 27. *)
Definition timestamp_of (run : value) : result datetime :=
  t <- getitem run "timestamp" ;; parse_timestamp t.

Definition detail (name : string) (run : value) : result value :=
  details <- getitem run "details" ;;
  getitem details name.

(** Lines 25-34. *)
Definition extractSeries (runs : value) : result (series datetime) :=
  rs <- iterate runs ;;
  run_numbers <- comprehension (fun run => getitem run "runNumber") rs ;;
  scores <- comprehension (fun run => getitem run "score") rs ;;
  timestamps <- comprehension timestamp_of rs ;;
  nodes_created <- comprehension (detail "nodesCreated") rs ;;
  edges_created <- comprehension (detail "edgesCreated") rs ;;
  property_coverage <- comprehension (detail "propertyCoverage") rs ;;
  relationship_accuracy <- comprehension (detail "relationshipAccuracy") rs ;;
  properties_per_node <- comprehension (detail "averagePropertiesPerNode") rs ;;
  Ok (mkSeries run_numbers scores timestamps nodes_created edges_created
        property_coverage relationship_accuracy properties_per_node).

(** Lines 19-34: [loaded] is the outcome of [json.load(f)]. *)
Definition parse (loaded : result value) : result (value * series datetime) :=
  data <- loaded ;;
  runs <- getitem data "runs" ;;
  s <- extractSeries runs ;;
  Ok (data, s).

(** A run record as the data model describes it. *)
Definition has_number (name : string) (obj : value) : bool :=
  match getitem obj name with
  | Ok v => is_number v
  | Raise _ => false
  end.

Definition well_formed_run (run : value) : bool :=
  has_number "runNumber" run && has_number "score" run
  && match getitem run "timestamp" with
     | Ok (VStr s) =>
         match fromisoformat (Str.replace "Z" "+00:00" s) with
         | Ok _ => true
         | Raise _ => false
         end
     | _ => false
     end
  && match getitem run "details" with
     | Ok details =>
         has_number "nodesCreated" details
         && has_number "edgesCreated" details
         && has_number "propertyCoverage" details
         && has_number "relationshipAccuracy" details
         && has_number "averagePropertiesPerNode" details
     | Raise _ => false
     end.

(** Each list of a returned [series] is the image of the runs, in their
    order, under the field access of its comprehension. *)
Definition projects (runs : list value) (s : series datetime) : Prop :=
  Forall2 (fun run v => getitem run "runNumber" = Ok v) runs (run_numbers s)
  /\ Forall2 (fun run v => getitem run "score" = Ok v) runs (scores s)
  /\ Forall2 (fun run t => timestamp_of run = Ok t) runs (timestamps s)
  /\ Forall2 (fun run v => detail "nodesCreated" run = Ok v)
       runs (nodes_created s)
  /\ Forall2 (fun run v => detail "edgesCreated" run = Ok v)
       runs (edges_created s)
  /\ Forall2 (fun run v => detail "propertyCoverage" run = Ok v)
       runs (property_coverage s)
  /\ Forall2 (fun run v => detail "relationshipAccuracy" run = Ok v)
       runs (relationship_accuracy s)
  /\ Forall2 (fun run v => detail "averagePropertiesPerNode" run = Ok v)
       runs (properties_per_node s).

Definition same_length (n : nat) (s : series datetime) : Prop :=
  List.length (run_numbers s) = n
  /\ List.length (scores s) = n
  /\ List.length (timestamps s) = n
  /\ List.length (nodes_created s) = n
  /\ List.length (edges_created s) = n
  /\ List.length (property_coverage s) = n
  /\ List.length (relationship_accuracy s) = n
  /\ List.length (properties_per_node s) = n.
End Extraction.

Arguments parse_timestamp {datetime}.
Arguments extractSeries {datetime}.
Arguments parse {datetime}.
Arguments well_formed_run {datetime}.
Arguments timestamp_of {datetime}.
Arguments projects {datetime}.
Arguments same_length {datetime}.

(** ** Binary64 and exact arithmetic *)

(** The operations the convolution needs. *)
Class Arithmetic (num : Type) : Type := {
  num_zero : num;
  num_one : num;
  num_add : num -> num -> num;
  num_mul : num -> num -> num;
  num_div : num -> num -> num;
  num_of_int : Z -> num
}.

Module Binary64.

Definition prec : Z := 53.
Definition emax : Z := 1024.

(** [float(z)] inside the range: the nearest binary64 value, ties to
    even.  (Beyond the range this gives an infinity.) *)
Definition of_Z (z : Z) : spec_float := binary_normalize prec emax z 0 false.

(** [n / d] on two integers that binary64 holds exactly: the value
    nearest to the quotient. *)
Definition ratio (n d : Z) : spec_float := SFdiv prec emax (of_Z n) (of_Z d).

Definition is_finite (x : spec_float) : bool :=
  match x with
  | S754_zero _ | S754_finite _ _ _ => true
  | S754_infinity _ | S754_nan => false
  end.

(** The values a binary64 variable can hold. *)
Definition valid (x : spec_float) : bool := valid_binary prec emax x.

(** The rational that a finite value denotes. *)
Definition to_Q (x : spec_float) : Q :=
  match x with
  | S754_finite s m e =>
      let v := if (0 <=? e)%Z then inject_Z (Zpos m * 2 ^ e)
               else (Zpos m # Z.to_pos (2 ^ (- e)))%Q in
      if s then Qopp v else v
  | _ => 0%Q
  end.

(** A zero without its sign, any other value as it is. *)
Definition unsigned_zero (x : spec_float) : spec_float :=
  match x with
  | S754_zero _ => S754_zero false
  | _ => x
  end.

End Binary64.

#[export] Instance binary64 : Arithmetic spec_float := {|
  num_zero := S754_zero false;
  num_one := Binary64.of_Z 1;
  num_add := SFadd Binary64.prec Binary64.emax;
  num_mul := SFmul Binary64.prec Binary64.emax;
  num_div := SFdiv Binary64.prec Binary64.emax;
  num_of_int := Binary64.of_Z
|}.

#[export] Instance rational : Arithmetic Q := {|
  num_zero := 0%Q;
  num_one := 1%Q;
  num_add := Qplus;
  num_mul := Qmult;
  num_div := Qdiv;
  num_of_int := inject_Z
|}.

(** ** Lines 40-45: rolling averages *)

Section Convolution.
Context {num : Type} {arith : Arithmetic num}.

(** [np.ones(n)]. *)
Definition np_ones (n : Z) : result (list num) :=
  if (n <? 0)%Z then Raise ValueError else Ok (repeat num_one (Z.to_nat n)).

(** The inner loop of the correlation: the products are added one after
    the other, from the left, to a sum that starts at zero. *)
Fixpoint dot_from (acc : num) (xs ys : list num) : num :=
  match xs, ys with
  | x :: xs', y :: ys' => dot_from (num_add acc (num_mul x y)) xs' ys'
  | _, _ => acc
  end.

Definition dot (xs ys : list num) : num := dot_from num_zero xs ys.

(** [np.correlate(a, v, 'valid')] for [len(v) <= len(a)]: one value for
    each position where [v] lies inside [a]. *)
Definition correlate_valid (a v : list num) : list num :=
  map (fun i => dot (skipn i a) v)
    (seq 0 (List.length a - List.length v + 1)).

(** [np.convolve(a, v, mode='valid')]: the longer argument comes first, an
    empty argument raises [ValueError], and the result is the correlation
    with the reversed second argument. *)
Definition np_convolve_valid (a v : list num) : result (list num) :=
  let (a, v) :=
    if Nat.ltb (List.length a) (List.length v) then (v, a) else (a, v) in
  match a, v with
  | [], _ => Raise ValueError
  | _, [] => Raise ValueError
  | _, _ => Ok (correlate_valid a (List.rev v))
  end.

(** [np.ones(window)/window]. *)
Definition weights (window : Z) : list num :=
  repeat (num_div num_one (num_of_int window)) (Z.to_nat window).

(** [np.convolve(series, np.ones(window)/window, mode='valid')]. *)
Definition rollingAverage (series : list num) (window : Z)
  : result (list num) :=
  ones <- np_ones window ;;
  np_convolve_valid series (map (fun x => num_div x (num_of_int window)) ones).
End Convolution.

(** [np.array(xs)] of a list, element by element: numbers become binary64
    (an integer the nearest value; one beyond the range is taken as an
    infinity here), strings and nested lists make [np.convolve] raise
    [ValueError], [None] and dicts [TypeError]. *)
Definition to_float (v : value) : result spec_float :=
  match v with
  | VInt z => Ok (Binary64.of_Z z)
  | VFloat x => Ok x
  | VBool b => Ok (Binary64.of_Z (if b then 1 else 0))
  | VStr _ | VList _ => Raise ValueError
  | VNone | VDict _ => Raise TypeError
  end.

Definition window_size : Z := 3.

(** Lines 42-45. *)
Definition rolling {datetime : Type} (s : series datetime)
  : result (list spec_float * list spec_float * list spec_float * list value) :=
  xs <- comprehension to_float (scores s) ;;
  rolling_scores <- rollingAverage xs window_size ;;
  ns <- comprehension to_float (nodes_created s) ;;
  rolling_nodes <- rollingAverage ns window_size ;;
  es <- comprehension to_float (edges_created s) ;;
  rolling_edges <- rollingAverage es window_size ;;
  Ok (rolling_scores, rolling_nodes, rolling_edges,
      skipn (Z.to_nat (window_size - 1)) (run_numbers s)).

Fixpoint Qsum (xs : list Q) : Q :=
  match xs with
  | [] => 0%Q
  | x :: xs' => (x + Qsum xs')%Q
  end.

(** The arithmetic mean of a list. *)
Definition mean (xs : list Q) : Q :=
  (Qsum xs / inject_Z (Z.of_nat (List.length xs)))%Q.

(** ** Number formatting *)

Definition digit (n : Z) : ascii := ascii_of_N (48 + Z.to_N n).

(** The last [d] decimal digits of [m], zero padded. *)
Fixpoint digits_fixed (d : nat) (m : Z) : string :=
  match d with
  | O => EmptyString
  | S d' => digits_fixed d' (m / 10) ++ String (digit (m mod 10)) EmptyString
  end.

Definition string_of_N (n : N) : string :=
  DecimalString.NilZero.string_of_uint (N.to_uint n).

(** [str(z)] for an [int]. *)
Definition string_of_Z (z : Z) : string :=
  match z with
  | Zneg p => String "-" (string_of_N (Npos p))
  | _ => string_of_N (Z.to_N z)
  end.

(** The integer nearest to a non-negative rational, ties to the even one:
    the rounding of the [f] presentation type. *)
Definition round_half_even (q : Q) : Z :=
  let n := Qnum q in
  let d := Zpos (Qden q) in
  let fl := (n / d)%Z in
  match (2 * (n mod d) ?= d)%Z with
  | Lt => fl
  | Gt => (fl + 1)%Z
  | Eq => if Z.even fl then fl else (fl + 1)%Z
  end.

(** [format(x, '.<d>f')] for a finite non-zero [x] of value [q]: sign,
    integer part, and for [d > 0] a point and exactly [d] digits. *)
Definition format_f (d : nat) (q : Q) : string :=
  let p := (10 ^ Z.of_nat d)%Z in
  let m := round_half_even (Qabs q * inject_Z p)%Q in
  (if (Qnum q <? 0)%Z then "-" else "")
  ++ string_of_N (Z.to_N (m / p))
  ++ match d with
     | O => ""
     | S _ => "." ++ digits_fixed d (m mod p)
     end.

(** [format(x, '.<d>f')] for a float: [nan], [inf] and [-inf] have no
    digits, a zero keeps its sign. *)
Definition format_float (d : nat) (x : spec_float) : string :=
  match x with
  | S754_nan => "nan"
  | S754_infinity false => "inf"
  | S754_infinity true => "-inf"
  | S754_zero s => (if s then "-" else "") ++ format_f d 0
  | S754_finite _ _ _ => format_f d (Binary64.to_Q x)
  end.

(** [float(z)] as the integer it is: [z] itself below [2^53], else [z]
    rounded to 53 significant bits, ties to even; [None] when the result
    is beyond the binary64 range. *)
Definition float_of_int (z : Z) : option Z :=
  let a := Z.abs z in
  if (a <? 2 ^ 53)%Z then Some z
  else
    let k := (Z.log2 a - 52)%Z in
    let v := (round_half_even (a # Z.to_pos (2 ^ k)) * 2 ^ k)%Z in
    if (v <? 2 ^ 1024)%Z then Some (Z.sgn z * v)%Z else None.

(** [format(v, '.<d>f')] for a loaded value: [int] and [bool] are converted
    to float first, with [OverflowError] for an integer beyond the range;
    [str] rejects the format code with [ValueError], the other types raise
    [TypeError]. *)
Definition format_value (d : nat) (v : value) : result string :=
  match v with
  | VInt z =>
      match float_of_int z with
      | Some r => Ok (format_f d (inject_Z r))
      | None => Raise OverflowError
      end
  | VFloat x => Ok (format_float d x)
  | VBool b => Ok (format_f d (if b then 1%Q else 0%Q))
  | VStr _ => Raise ValueError
  | _ => Raise TypeError
  end.





(** ** Lines 53 and 156-174: reading the summary *)

(** Text written to standard output so far, and how the statement ended. *)
Definition output (A : Type) : Type := (list string * result A)%type.

Definition print (line : string) : output unit := ([line], Ok tt).

Definition eval {A : Type} (r : result A) : output A := ([], r).

Definition then_ {A B : Type} (m : output A) (k : A -> output B) : output B :=
  match m with
  | (w, Ok a) => let (w', r) := k a in (w ++ w', r)
  | (w, Raise e) => (w, Raise e)
  end.

Notation "x <~ m ;; k" := (then_ m (fun x => k))
  (at level 61, m at next level, right associativity).

Fixpoint for_each {A : Type} (xs : list A) (body : A -> output unit)
  : output unit :=
  match xs with
  | [] => ([], Ok tt)
  | x :: xs' => _ <~ body x ;; for_each xs' body
  end.

Definition newline : string := String "010" EmptyString.

Section Summary.
(** [str(v)] of a float, a list or a dict: the shortest repr of a float
    depends on its binary64 form, so it is a parameter. *)
Variable repr_other : value -> string.

(** [str(v)], what a replacement field without a format yields. *)
Definition py_str (v : value) : string :=
  match v with
  | VNone => "None"
  | VBool true => "True"
  | VBool false => "False"
  | VInt z => string_of_Z z
  | VStr s => s
  | _ => repr_other v
  end.

(** [data['summary'][name]]. *)
Definition summary_field (data : value) (name : string) : result value :=
  summary <- getitem data "summary" ;;
  getitem summary name.

(** [data['summary']['averageMetrics'][name]]. *)
Definition average_metric (data : value) (name : string) : result value :=
  metrics <- summary_field data "averageMetrics" ;;
  getitem metrics name.

(** [print(f"<label>{v:.<d>f}")]. *)
Definition print_fixed (label : string) (d : nat) (v : result value)
  : output unit :=
  text <~ eval (x <- v ;; format_value d x) ;;
  print (label ++ text).

(** Lines 157-174. *)
Definition print_summary (json_file_path : string) (data : value)
  : output unit :=
  _ <~ print ("Loaded evaluation results from: " ++ json_file_path) ;;
  _ <~ print "Summary Statistics:" ;;
  _ <~ print_fixed "Average Score: " 1 (summary_field data "averageScore") ;;
  lo <~ eval (summary_field data "minScore") ;;
  hi <~ eval (summary_field data "maxScore") ;;
  _ <~ print ("Score Range: " ++ py_str lo ++ " - " ++ py_str hi) ;;
  _ <~ print_fixed "Average Nodes Created: " 1
         (average_metric data "nodesCreated") ;;
  _ <~ print_fixed "Average Edges Created: " 1
         (average_metric data "edgesCreated") ;;
  _ <~ print_fixed "Average Property Coverage: " 2
         (average_metric data "propertyCoverage") ;;
  _ <~ print_fixed "Average Relationship Accuracy: " 2
         (average_metric data "relationshipAccuracy") ;;
  _ <~ print_fixed "Standard Deviation: " 2
         (summary_field data "standardDeviation") ;;
  _ <~ print_fixed "Consistency Score: " 2
         (summary_field data "consistencyScore") ;;
  _ <~ print (newline ++ "Main Problems:") ;;
  problems <~ eval (ps <- summary_field data "mainProblems" ;; iterate ps) ;;
  _ <~ for_each problems (fun problem => print ("- " ++ py_str problem)) ;;
  _ <~ print (newline ++ "Strengths:") ;;
  strengths <~ eval (ss <- summary_field data "strengths" ;; iterate ss) ;;
  for_each strengths (fun strength => print ("- " ++ py_str strength)).
End Summary.

(** Line 53, the first statement that reads [data['summary']]: the value
    of [y=] and the text of the legend label. *)
Definition average_line (data : value) : result (value * string) :=
  y <- summary_field data "averageScore" ;;
  avg <- summary_field data "averageScore" ;;
  text <- format_value 1 avg ;;
  Ok (y, ("Avg: " ++ text)%string).

(** Lines 19-53: load, extract, rolling averages, then the first chart with
    its average line.  The plotting calls in between draw the extracted
    lists and are not modelled. *)
Definition script_to_average_line {datetime : Type}
  (fromisoformat : string -> result datetime) (loaded : result value)
  : result (value * string) :=
  ds <- parse fromisoformat loaded ;;
  _ <- rolling (snd ds) ;;
  average_line (fst ds).


(** ** A small result set

    Two runs with scores 10 and 20 and a summary with an average of 15, and
    the same document without its summary.  In the examples every time
    stamp is accepted and kept as text, and no value that needs
    [repr_other] is printed. *)

Definition sample_run (number score : Z) : value :=
  VDict [("runNumber", VInt number);
         ("score", VInt score);
         ("timestamp", VStr "2024-01-01T00:00:00Z");
         ("details",
          VDict [("nodesCreated", VInt 4);
                 ("edgesCreated", VInt 3);
                 ("propertyCoverage", VFloat (Binary64.ratio 1 2));
                 ("relationshipAccuracy", VFloat (Binary64.ratio 3 4));
                 ("averagePropertiesPerNode", VFloat (Binary64.ratio 5 2))])].

Definition sample_runs : list value := [sample_run 1 10; sample_run 2 20].

Definition sample_summary : value :=
  VDict [("averageScore", VInt 15);
         ("minScore", VInt 10);
         ("maxScore", VInt 20);
         ("averageMetrics",
          VDict [("nodesCreated", VInt 4);
                 ("edgesCreated", VInt 3);
                 ("propertyCoverage", VFloat (Binary64.ratio 1 2));
                 ("relationshipAccuracy", VFloat (Binary64.ratio 3 4))]);
         ("standardDeviation", VInt 5);
         ("consistencyScore", VFloat (Binary64.ratio 9 10));
         ("mainProblems", VList [VStr "missing edges"]);
         ("strengths", VList [VStr "stable node count"])].

Definition sample_items : list (string * value) :=
  [("runs", VList sample_runs); ("summary", sample_summary)].

Definition sample_items_without_summary : list (string * value) :=
  [("runs", VList sample_runs)].

(** Three runs, and a document with them: enough for the rolling series
    to line up with their run numbers. *)
Definition three_runs : list value :=
  [sample_run 1 10; sample_run 2 15; sample_run 3 20].

Definition three_summary : value :=
  VDict [("averageScore", VInt 15);
         ("minScore", VInt 10);
         ("maxScore", VInt 20);
         ("averageMetrics",
          VDict [("nodesCreated", VInt 4);
                 ("edgesCreated", VInt 3);
                 ("propertyCoverage", VFloat (Binary64.ratio 1 2));
                 ("relationshipAccuracy", VFloat (Binary64.ratio 3 4))]);
         ("standardDeviation", VFloat (Binary64.ratio 41 10));
         ("consistencyScore", VFloat (Binary64.ratio 9 10));
         ("mainProblems", VList [VStr "missing edges"]);
         ("strengths", VList [VStr "stable node count"])].

Definition three_items : list (string * value) :=
  [("runs", VList three_runs); ("summary", three_summary)].

(** Four other runs under the same summary. *)
Definition other_runs : list value :=
  [sample_run 4 30; sample_run 5 40; sample_run 6 50; sample_run 7 60].

Definition other_items : list (string * value) :=
  [("runs", VList other_runs); ("summary", three_summary)].

Definition keep_text (text : string) : result string := Ok text.

Definition no_repr (v : value) : string := EmptyString.

Definition sample_path : string := "eval/eval-results-demo-0-1700000000.json".

(** ** Line 151: where the image is written

    [os.path] is [posixpath]: the separator is ['/']. *)

Module Path.

(** [s.rfind(c) + 1]: the position after the last [c], 0 without one. *)
Fixpoint rfind_end (c : ascii) (s : string) : nat :=
  match s with
  | EmptyString => 0
  | String d r =>
      match rfind_end c r with
      | O => if Ascii.eqb d c then 1 else 0
      | S k => S (S k)
      end
  end.

(** [s == c * len(s)]. *)
Fixpoint all_char (c : ascii) (s : string) : bool :=
  match s with
  | EmptyString => true
  | String d r => Ascii.eqb d c && all_char c r
  end.

(** [s.rstrip(c)]. *)
Fixpoint rstrip (c : ascii) (s : string) : string :=
  match s with
  | EmptyString => EmptyString
  | String d r =>
      match rstrip c r with
      | EmptyString => if Ascii.eqb d c then EmptyString else String d EmptyString
      | r' => String d r'
      end
  end.

(** [s.endswith(c)]. *)
Fixpoint endswith (c : ascii) (s : string) : bool :=
  match s with
  | EmptyString => false
  | String d EmptyString => Ascii.eqb d c
  | String _ r => endswith c r
  end.

(** [os.path.dirname(p)]: everything up to the last separator, without
    trailing separators unless it consists of separators only. *)
Definition dirname (p : string) : string :=
  let head := substring 0 (rfind_end "/" p) p in
  if (negb (String.eqb head "") && negb (all_char "/" head))%bool
  then rstrip "/" head else head.

(** [os.path.join(a, b)]. *)
Definition join (a b : string) : string :=
  if prefix "/" b then b
  else if (String.eqb a "" || endswith "/" a)%bool then (a ++ b)%string
  else (a ++ "/" ++ b)%string.

End Path.

(** Line 151. *)
Definition output_image_path (json_file_path : string) : string :=
  Path.join (Path.dirname json_file_path)
    ("eval_results_plot-" ++ timestamp_part json_file_path ++ ".png").

(** ** The script as a whole *)

(** matplotlib's [plot(x, y)] raises [ValueError] when the two sequences
    differ in length. *)
Definition plot {A B : Type} (xs : list A) (ys : list B) : result unit :=
  if Nat.eqb (List.length xs) (List.length ys) then Ok tt
  else Raise ValueError.

(** Lines 19-174 on the selected path, [loaded] being the outcome of
    [json.load]: load and extract, the rolling averages, the three reads
    of the average score for the reference lines (lines 53, 96, 118), the
    three plots of a rolling series against [rolling_run_numbers] (lines
    112, 123, 130), the message of line 153, the summary.  The other
    plotting calls draw lists of equal length and are left out. *)
Definition script {datetime : Type}
  (fromisoformat : string -> result datetime) (repr_other : value -> string)
  (json_file_path : string) (loaded : result value) : output unit :=
  ds <~ eval (parse fromisoformat loaded) ;;
  r <~ eval (rolling (snd ds)) ;;
  _ <~ eval (average_line (fst ds)) ;;
  _ <~ eval (average_line (fst ds)) ;;
  _ <~ eval (plot (snd r) (fst (fst (fst r)))) ;;
  _ <~ eval (average_line (fst ds)) ;;
  _ <~ eval (plot (snd r) (snd (fst (fst r)))) ;;
  _ <~ eval (plot (snd r) (snd (fst r))) ;;
  _ <~ print ("Plot saved to: " ++ output_image_path json_file_path) ;;
  print_summary repr_other json_file_path (fst ds).

(** ** Records the script can process

    A run that the comprehensions of lines 25-34 accept: the keys are
    present and the time stamp is a string that the parser takes; the
    types of the other fields are not looked at. *)
Definition has_key (name : string) (obj : value) : bool :=
  match getitem obj name with
  | Ok _ => true
  | Raise _ => false
  end.

Definition extractable {datetime : Type}
  (fromisoformat : string -> result datetime) (run : value) : bool :=
  has_key "runNumber" run && has_key "score" run
  && match timestamp_of fromisoformat run with
     | Ok _ => true
     | Raise _ => false
     end
  && match getitem run "details" with
     | Ok details =>
         has_key "nodesCreated" details
         && has_key "edgesCreated" details
         && has_key "propertyCoverage" details
         && has_key "relationshipAccuracy" details
         && has_key "averagePropertiesPerNode" details
     | Raise _ => false
     end.

Definition is_dict (v : value) : bool :=
  match v with
  | VDict _ => true
  | _ => false
  end.

(** A number with a finite binary64 value: a float that is neither an
    infinity nor NaN, an integer inside the range. *)
Definition is_finite_number (v : value) : bool :=
  match v with
  | VInt z =>
      match float_of_int z with
      | Some _ => true
      | None => false
      end
  | VFloat x => Binary64.is_finite x
  | _ => false
  end.

Definition has_finite (name : string) (obj : value) : bool :=
  match getitem obj name with
  | Ok v => is_finite_number v
  | Raise _ => false
  end.

(** A number that [np.array] keeps in an [int64] or [float64] array and
    that is finite there. *)
Definition is_array_number (v : value) : bool :=
  match v with
  | VInt z => (- 2 ^ 63 <=? z)%Z && (z <? 2 ^ 63)%Z
  | VFloat x => Binary64.is_finite x
  | _ => false
  end.

Definition has_array_number (name : string) (obj : value) : bool :=
  match getitem obj name with
  | Ok v => is_array_number v
  | Raise _ => false
  end.

(** A well-formed run whose numbers are all finite machine numbers: what
    the charts can draw. *)
Definition finite_run {datetime : Type}
  (fromisoformat : string -> result datetime) (run : value) : bool :=
  well_formed_run fromisoformat run
  && has_array_number "runNumber" run && has_array_number "score" run
  && match getitem run "details" with
     | Ok details =>
         has_array_number "nodesCreated" details
         && has_array_number "edgesCreated" details
         && has_array_number "propertyCoverage" details
         && has_array_number "relationshipAccuracy" details
         && has_array_number "averagePropertiesPerNode" details
     | Raise _ => false
     end.



(** A summary as the data model describes it: finite numbers where a
    precision is applied, lists for the problems and the strengths. *)
Definition well_formed_summary (data : value) : bool :=
  match getitem data "summary" with
  | Ok summary =>
      has_finite "averageScore" summary
      && has_key "minScore" summary && has_key "maxScore" summary
      && match getitem summary "averageMetrics" with
         | Ok metrics =>
             has_finite "nodesCreated" metrics
             && has_finite "edgesCreated" metrics
             && has_finite "propertyCoverage" metrics
             && has_finite "relationshipAccuracy" metrics
         | Raise _ => false
         end
      && has_finite "standardDeviation" summary
      && has_finite "consistencyScore" summary
      && match getitem summary "mainProblems" with
         | Ok (VList _) => true
         | _ => false
         end
      && match getitem summary "strengths" with
         | Ok (VList _) => true
         | _ => false
         end
  | Raise _ => false
  end.

(** The lines of a dashed listing. *)
Definition dashed (repr_other : value -> string) (xs : list value)
  : list string :=
  map (fun x => ("- " ++ py_str repr_other x)%string) xs.


(** The rolling series have [width] values for [n] runs. *)
Definition rolling_width (n : nat) : nat :=
  if Nat.ltb n (Z.to_nat window_size)
  then Z.to_nat window_size - n + 1
  else n - Z.to_nat window_size + 1.

(** * Properties *)

(** ** The order on keys *)

Lemma ascii_compare_refl (a : ascii) : Ascii.compare a a = Eq.
Proof. unfold Ascii.compare. apply N.compare_refl. Qed.

Lemma ascii_compare_lt_trans (a b c : ascii) :
  Ascii.compare a b = Lt -> Ascii.compare b c = Lt -> Ascii.compare a c = Lt.
Proof.
  unfold Ascii.compare. rewrite !N.compare_lt_iff. apply N.lt_trans.
Qed.

Lemma string_compare_refl (s : string) : String.compare s s = Eq.
Proof.
  induction s as [|a s IH]; simpl; [reflexivity|].
  now rewrite ascii_compare_refl.
Qed.

Lemma string_compare_lt_trans (s t u : string) :
  String.compare s t = Lt -> String.compare t u = Lt -> String.compare s u = Lt.
Proof.
  revert t u. induction s as [|a s IH]; intros [|b t] [|c u]; simpl;
    try discriminate; auto.
  destruct (Ascii.compare a b) eqn:Hab; try discriminate;
    destruct (Ascii.compare b c) eqn:Hbc; try discriminate; intros Hst Htu.
  - apply Ascii.compare_eq_iff in Hab, Hbc. subst.
    rewrite ascii_compare_refl. eauto.
  - apply Ascii.compare_eq_iff in Hab. subst. now rewrite Hbc.
  - apply Ascii.compare_eq_iff in Hbc. subst. now rewrite Hab.
  - now rewrite (ascii_compare_lt_trans _ _ _ Hab Hbc).
Qed.

Lemma ltb_lt (s t : string) : String.ltb s t = true <-> String.compare s t = Lt.
Proof. unfold String.ltb. destruct (String.compare s t); split; congruence. Qed.

Lemma ltb_irrefl (s : string) : String.ltb s s = false.
Proof. unfold String.ltb. now rewrite string_compare_refl. Qed.

Lemma ltb_trans (s t u : string) :
  String.ltb s t = true -> String.ltb t u = true -> String.ltb s u = true.
Proof. rewrite !ltb_lt. apply string_compare_lt_trans. Qed.

(** [leb s t] is "not [t < s]". *)
Lemma leb_not_ltb (s t : string) : String.leb s t = negb (String.ltb t s).
Proof.
  unfold String.leb, String.ltb. rewrite (String.compare_antisym s t).
  now destruct (String.compare t s).
Qed.

Lemma ltb_leb (s t : string) : String.ltb s t = true -> String.leb s t = true.
Proof.
  rewrite ltb_lt. unfold String.leb. intros H. now rewrite H.
Qed.

Lemma leb_refl (s : string) : String.leb s s = true.
Proof. unfold String.leb. now rewrite string_compare_refl. Qed.

Lemma leb_trans (s t u : string) :
  String.leb s t = true -> String.leb t u = true -> String.leb s u = true.
Proof.
  unfold String.leb.
  destruct (String.compare s t) eqn:Hst; try discriminate;
    destruct (String.compare t u) eqn:Htu; try discriminate; intros _ _.
  - apply String.compare_eq_iff in Hst, Htu. subst.
    now rewrite string_compare_refl.
  - apply String.compare_eq_iff in Hst. subst. now rewrite Htu.
  - apply String.compare_eq_iff in Htu. subst. now rewrite Hst.
  - now rewrite (string_compare_lt_trans _ _ _ Hst Htu).
Qed.

(** ** Splitting and replacing *)

Lemma split_no_separator (sep : ascii) (s : string) :
  Str.contains sep s = false -> Str.split sep s = [s].
Proof.
  induction s as [|c r IH]; simpl; [reflexivity|].
  intros H. apply orb_false_iff in H as [Hc Hr].
  now rewrite Hc, (IH Hr).
Qed.

Lemma contains_app (c : ascii) (s t : string) :
  Str.contains c (s ++ t)%string
  = (Str.contains c s || Str.contains c t)%bool.
Proof.
  induction s as [|d r IH]; simpl; [reflexivity|].
  now rewrite IH, orb_assoc.
Qed.

Lemma split_nonempty (sep : ascii) (s : string) : Str.split sep s <> [].
Proof.
  destruct s as [|c r]; simpl; [discriminate|].
  destruct (Ascii.eqb c sep); [discriminate|].
  destruct (Str.split sep r); discriminate.
Qed.

Lemma split_app (sep : ascii) (p t : string) :
  Str.split sep (p ++ String sep t) = Str.split sep p ++ Str.split sep t.
Proof.
  induction p as [|c r IH]; simpl.
  - now rewrite Ascii.eqb_refl.
  - rewrite IH. destruct (Ascii.eqb c sep); [reflexivity|].
    pose proof (split_nonempty sep r) as Hne.
    destruct (Str.split sep r); [congruence|reflexivity].
Qed.

Lemma last_piece_after_separator (sep : ascii) (p t : string) :
  Str.contains sep t = false ->
  Str.last_piece (Str.split sep (p ++ String sep t)) = t.
Proof.
  intros Ht. rewrite split_app, (split_no_separator _ _ Ht).
  unfold Str.last_piece. apply last_last.
Qed.

Lemma replace_json_suffix (t : string) :
  Str.contains "." t = false -> Str.replace ".json" "" (t ++ ".json") = t.
Proof.
  unfold Str.replace. induction t as [|c r IH]; [reflexivity|].
  simpl Str.contains. intros H. apply orb_false_iff in H as [Hc Hr].
  cbn [append Str.replace_from prefix].
  destruct (ascii_dec "." c) as [<-|_]; [discriminate|].
  now rewrite (IH Hr).
Qed.



(** ** The sort of line 14 *)

Section SortFacts.
Context {A : Type} (key : A -> string).

Lemma insert_desc_perm (x : A) (l : list A) :
  Permutation (x :: l) (insert_desc key x l).
Proof.
  induction l as [|y l IH]; simpl; [apply Permutation_refl|].
  destruct (String.ltb (key x) (key y)); [|apply Permutation_refl].
  eapply perm_trans; [apply perm_swap|]. now apply perm_skip.
Qed.

Lemma sort_desc_perm (l : list A) : Permutation l (sort_desc key l).
Proof.
  induction l as [|x l IH]; simpl; [constructor|].
  eapply perm_trans; [apply perm_skip, IH|apply insert_desc_perm].
Qed.

Lemma insert_desc_sorted (x : A) (l : list A) :
  Sorted (desc key) l -> Sorted (desc key) (insert_desc key x l).
Proof.
  induction l as [|y l IH]; simpl; intros Hs.
  - repeat constructor.
  - destruct (String.ltb (key x) (key y)) eqn:Hxy.
    + inversion Hs as [|? ? Hl Hhd]; subst. constructor; [auto|].
      destruct l as [|z l]; simpl.
      * constructor. now apply ltb_leb.
      * destruct (String.ltb (key x) (key z)); constructor.
        -- now inversion Hhd.
        -- now apply ltb_leb.
    + constructor; [assumption|]. constructor.
      unfold desc. now rewrite leb_not_ltb, Hxy.
Qed.

Lemma sort_desc_sorted (l : list A) : Sorted (desc key) (sort_desc key l).
Proof.
  induction l as [|x l IH]; simpl; [constructor|].
  now apply insert_desc_sorted.
Qed.

Lemma hd_insert_desc (x : A) (l : list A) :
  hd_error (insert_desc key x l) =
  match hd_error l with
  | None => Some x
  | Some y => if String.ltb (key x) (key y) then Some y else Some x
  end.
Proof.
  destruct l as [|y l]; simpl; [reflexivity|].
  now destruct (String.ltb (key x) (key y)).
Qed.

Lemma hd_sort_desc (l : list A) : hd_error (sort_desc key l) = first_max key l.
Proof.
  induction l as [|x l IH]; simpl; [reflexivity|].
  now rewrite hd_insert_desc, IH.
Qed.

(** The choice is the first element, in the order of the input, among
    those of maximal key. *)
Lemma first_max_spec (l : list A) (p : A) :
  first_max key l = Some p ->
  exists before after,
    l = before ++ p :: after
    /\ Forall (fun x => String.ltb (key x) (key p) = true) before
    /\ Forall (fun x => String.leb (key x) (key p) = true) after.
Proof.
  revert p. induction l as [|x l IH]; simpl; intros p Hp; [discriminate|].
  destruct (first_max key l) as [y|] eqn:Hy.
  - destruct (IH y eq_refl) as (before & after & -> & Hb & Ha).
    destruct (String.ltb (key x) (key y)) eqn:Hxy; injection Hp as <-.
    + exists (x :: before), after. repeat split; auto.
    + assert (Hyx : String.leb (key y) (key x) = true)
        by now rewrite leb_not_ltb, Hxy.
      exists [], (before ++ y :: after). repeat split; auto.
      apply Forall_app. split; [|constructor; [assumption|]].
      * eapply Forall_impl; [|exact Hb]. simpl. intros z Hz.
        eapply leb_trans; [apply ltb_leb, Hz|exact Hyx].
      * eapply Forall_impl; [|exact Ha]. simpl. intros z Hz.
        eapply leb_trans; [exact Hz|exact Hyx].
  - injection Hp as <-. destruct l as [|z l].
    + exists [], []. repeat split; constructor.
    + simpl in Hy. destruct (first_max key l) as [w|];
        [destruct (String.ltb (key z) (key w))|]; discriminate.
Qed.

Lemma first_max_nonempty (x : A) (l : list A) :
  exists p, first_max key (x :: l) = Some p.
Proof.
  simpl. destruct (first_max key l) as [y|]; [|eauto].
  destruct (String.ltb (key x) (key y)); eauto.
Qed.
End SortFacts.

Lemma selectLatestFile_first_max (eval_files : list string) (p : string) :
  first_max sort_key eval_files = Some p ->
  selectLatestFile eval_files = Ok p.
Proof.
  intros Hp. unfold selectLatestFile.
  destruct eval_files as [|x l]; [discriminate|].
  rewrite <- hd_sort_desc in Hp.
  destruct (sort_desc sort_key (x :: l)); [discriminate|].
  now injection Hp as ->.
Qed.

(** C1 (as amended): for every non-empty list of candidates the selected
    path is the first one, in the order of the list, whose key is maximal;
    the key is the text after the last ['-'] with every occurrence of
    [.json] removed.  Candidates before it have a strictly smaller key,
    candidates after it a smaller or equal one. *)
Theorem selectLatestFile_maximal_key (eval_files : list string) :
  eval_files <> [] ->
  exists before p after,
    selectLatestFile eval_files = Ok p
    /\ eval_files = before ++ p :: after
    /\ sort_key p = Str.replace ".json" "" (Str.last_piece (Str.split "-" p))
    /\ Forall (fun x => String.ltb (sort_key x) (sort_key p) = true) before
    /\ Forall (fun x => String.leb (sort_key x) (sort_key p) = true) after.
Proof.
  intros Hne. destruct eval_files as [|x l]; [congruence|].
  destruct (first_max_nonempty sort_key x l) as [p Hp].
  destruct (first_max_spec sort_key _ _ Hp) as (before & after & E & Hb & Ha).
  exists before, p, after. repeat split; auto.
  now apply selectLatestFile_first_max.
Qed.

Lemma selectLatestFile_maximal_key_witness :
  exists before p after,
    selectLatestFile
      ["eval/eval-results-a-0-100.json"; "eval/eval-results-b-1-200.json";
       "eval/eval-results-c-2-200.json"] = Ok p
    /\ ["eval/eval-results-a-0-100.json"; "eval/eval-results-b-1-200.json";
        "eval/eval-results-c-2-200.json"] = before ++ p :: after
    /\ sort_key p = Str.replace ".json" "" (Str.last_piece (Str.split "-" p))
    /\ Forall (fun x => String.ltb (sort_key x) (sort_key p) = true) before
    /\ Forall (fun x => String.leb (sort_key x) (sort_key p) = true) after.
Proof.
  apply (selectLatestFile_maximal_key
           ["eval/eval-results-a-0-100.json"; "eval/eval-results-b-1-200.json";
            "eval/eval-results-c-2-200.json"]).
  discriminate.
Defined.

(** C1, counterexample: both names match the glob pattern; the selected
    file is the second one, while the segment of the first one with only
    the extension stripped, [b.json], is the greater of the two. *)
Lemma selectLatestFile_extension_counterexample :
  selectLatestFile
    ["eval/eval-results-b.json.json"; "eval/eval-results-b!.json"]
  = Ok "eval/eval-results-b!.json"
  /\ timestamp_segment "eval/eval-results-b!.json" = "b!"
  /\ timestamp_segment "eval/eval-results-b.json.json" = "b.json"
  /\ String.ltb (timestamp_segment "eval/eval-results-b!.json")
       (timestamp_segment "eval/eval-results-b.json.json") = true.
Proof. repeat split. Qed.

(** C8: with no candidate the selection raises [FileNotFoundError]. *)
Theorem selectLatestFile_empty : selectLatestFile [] = Raise FileNotFoundError.
Proof. reflexivity. Qed.

(** ** Names outside the naming convention *)



(** ** Time stamps *)

Lemma replace_char_cons (old : ascii) (new : string) (c : ascii) (r : string) :
  Str.replace (String old "") new (String c r) =
  if Ascii.eqb c old then (new ++ Str.replace (String old "") new r)%string
  else String c (Str.replace (String old "") new r).
Proof.
  unfold Str.replace. simpl. destruct (ascii_dec old c) as [->|Hne].
  - rewrite Ascii.eqb_refl. now destruct r.
  - destruct (Ascii.eqb_spec c old) as [->|_]; [congruence|reflexivity].
Qed.

Lemma replace_char_absent (old : ascii) (new s : string) :
  Str.contains old s = false -> Str.replace (String old "") new s = s.
Proof.
  induction s as [|c r IH]; [reflexivity|].
  simpl. intros H. apply orb_false_iff in H as [Hc Hr].
  now rewrite replace_char_cons, Hc, (IH Hr).
Qed.

Lemma replace_char_trailing (old : ascii) (new s : string) :
  Str.contains old s = false ->
  Str.replace (String old "") new (s ++ String old "")%string
  = (s ++ new)%string.
Proof.
  induction s as [|c r IH]; simpl; intros H.
  - rewrite replace_char_cons, Ascii.eqb_refl.
    unfold Str.replace. simpl. clear H. induction new; simpl; congruence.
  - apply orb_false_iff in H as [Hc Hr].
    now rewrite replace_char_cons, Hc, (IH Hr).
Qed.

(** C5: a time stamp that ends in [Z], and has no other [Z], is handed to
    [fromisoformat] with [+00:00] in place of the [Z]; so it parses to
    whatever the text with the explicit offset parses to. *)
Theorem parse_timestamp_trailing_Z
  (datetime : Type) (fromisoformat : string -> result datetime) (s : string) :
  Str.contains "Z" s = false ->
  parse_timestamp fromisoformat (VStr (s ++ "Z"))
  = fromisoformat (s ++ "+00:00")%string
  /\ parse_timestamp fromisoformat (VStr (s ++ "+00:00"))
     = fromisoformat (s ++ "+00:00")%string.
Proof.
  intros Hs. unfold parse_timestamp. simpl. split.
  - now rewrite (replace_char_trailing "Z" "+00:00" s Hs).
  - rewrite replace_char_absent; [reflexivity|].
    now rewrite contains_app, Hs.
Qed.

Lemma parse_timestamp_trailing_Z_witness :
  parse_timestamp (fun text => Ok text) (VStr "2024-01-01T00:00:00Z")
  = Ok "2024-01-01T00:00:00+00:00"
  /\ parse_timestamp (fun text => Ok text) (VStr "2024-01-01T00:00:00+00:00")
     = Ok "2024-01-01T00:00:00+00:00".
Proof.
  apply (parse_timestamp_trailing_Z string (fun text => Ok text)
           "2024-01-01T00:00:00").
  reflexivity.
Defined.

(** ** Comprehensions *)

Lemma bind_Ok {A B : Type} (m : result A) (k : A -> result B) (b : B) :
  bind m k = Ok b -> exists a, m = Ok a /\ k a = Ok b.
Proof. destruct m as [a|e]; simpl; [eauto|discriminate]. Qed.

Section Comprehension.
Context {A B : Type} (f : A -> result B).

Lemma comprehension_Forall2 (xs : list A) (ys : list B) :
  comprehension f xs = Ok ys -> Forall2 (fun x y => f x = Ok y) xs ys.
Proof.
  revert ys. induction xs as [|x xs IH]; simpl; intros ys H.
  - injection H as <-. constructor.
  - destruct (f x) as [y|e] eqn:Hx; simpl in H; [|discriminate].
    destruct (comprehension f xs) as [ys'|e]; simpl in H; [|discriminate].
    injection H as <-. constructor; auto.
Qed.

Lemma comprehension_total (xs : list A) :
  Forall (fun x => exists y, f x = Ok y) xs ->
  exists ys, comprehension f xs = Ok ys.
Proof.
  induction 1 as [|x xs [y Hy] _ [ys IH]]; simpl; [eauto|].
  rewrite Hy, IH. simpl. eauto.
Qed.

Lemma comprehension_length (xs : list A) (ys : list B) :
  comprehension f xs = Ok ys -> List.length ys = List.length xs.
Proof.
  intros H. symmetry.
  exact (Forall2_length (comprehension_Forall2 _ _ H)).
Qed.
End Comprehension.

(** ** Extraction of the per-run lists *)

Section ExtractionFacts.
Context {datetime : Type} (fromisoformat : string -> result datetime).

Lemma has_number_getitem (name : string) (obj : value) :
  has_number name obj = true ->
  exists v, getitem obj name = Ok v /\ is_number v = true.
Proof.
  unfold has_number. destruct (getitem obj name); [eauto|discriminate].
Qed.

Lemma has_number_detail (name : string) (run details : value) :
  getitem run "details" = Ok details ->
  has_number name details = true ->
  exists v, detail name run = Ok v /\ is_number v = true.
Proof.
  intros Hd Hn. unfold detail. rewrite Hd. simpl.
  now apply has_number_getitem.
Qed.

(** What a well-formed run offers to each of the eight comprehensions. *)
Lemma well_formed_run_fields (run : value) :
  well_formed_run fromisoformat run = true ->
  (exists v, getitem run "runNumber" = Ok v /\ is_number v = true)
  /\ (exists v, getitem run "score" = Ok v /\ is_number v = true)
  /\ (exists t, timestamp_of fromisoformat run = Ok t)
  /\ (exists v, detail "nodesCreated" run = Ok v /\ is_number v = true)
  /\ (exists v, detail "edgesCreated" run = Ok v /\ is_number v = true)
  /\ (exists v, detail "propertyCoverage" run = Ok v /\ is_number v = true)
  /\ (exists v, detail "relationshipAccuracy" run = Ok v
                /\ is_number v = true)
  /\ (exists v, detail "averagePropertiesPerNode" run = Ok v
                /\ is_number v = true).
Proof.
  unfold well_formed_run. rewrite !andb_true_iff.
  intros [[[Hn Hs] Ht] Hd].
  destruct (getitem run "details") as [details|] eqn:Ed; [|discriminate].
  rewrite !andb_true_iff in Hd.
  destruct Hd as [[[[H1 H2] H3] H4] H5].
  repeat split; eauto using has_number_getitem, has_number_detail.
  unfold timestamp_of.
  destruct (getitem run "timestamp") as [[| | | |s| |]|];
    try discriminate.
  simpl. unfold parse_timestamp. simpl.
  destruct (fromisoformat (Str.replace "Z" "+00:00" s));
    [eauto|discriminate].
Qed.

Lemma Forall_well_formed (P : value -> Prop) (runs : list value) :
  (forall run, well_formed_run fromisoformat run = true -> P run) ->
  forallb (well_formed_run fromisoformat) runs = true -> Forall P runs.
Proof.
  intros HP H. rewrite forallb_forall in H.
  apply Forall_forall. auto.
Qed.

(** On well-formed runs the extraction returns. *)
Lemma extractSeries_total (runs : list value) :
  forallb (well_formed_run fromisoformat) runs = true ->
  exists s, extractSeries fromisoformat (VList runs) = Ok s.
Proof.
  intros Hwf. unfold extractSeries. simpl.
  destruct (comprehension_total (fun run => getitem run "runNumber") runs)
    as [l1 ->].
  { apply Forall_well_formed; [|exact Hwf]. intros run H.
    destruct (well_formed_run_fields run H) as ((v & ? & _) & _). eauto. }
  destruct (comprehension_total (fun run => getitem run "score") runs)
    as [l2 ->].
  { apply Forall_well_formed; [|exact Hwf]. intros run H.
    destruct (well_formed_run_fields run H) as (_ & (v & ? & _) & _). eauto. }
  destruct (comprehension_total (timestamp_of fromisoformat) runs)
    as [l3 ->].
  { apply Forall_well_formed; [|exact Hwf]. intros run H.
    destruct (well_formed_run_fields run H) as (_ & _ & ? & _). auto. }
  destruct (comprehension_total (detail "nodesCreated") runs) as [l4 ->].
  { apply Forall_well_formed; [|exact Hwf]. intros run H.
    destruct (well_formed_run_fields run H)
      as (_ & _ & _ & (v & ? & _) & _). eauto. }
  destruct (comprehension_total (detail "edgesCreated") runs) as [l5 ->].
  { apply Forall_well_formed; [|exact Hwf]. intros run H.
    destruct (well_formed_run_fields run H)
      as (_ & _ & _ & _ & (v & ? & _) & _). eauto. }
  destruct (comprehension_total (detail "propertyCoverage") runs)
    as [l6 ->].
  { apply Forall_well_formed; [|exact Hwf]. intros run H.
    destruct (well_formed_run_fields run H)
      as (_ & _ & _ & _ & _ & (v & ? & _) & _). eauto. }
  destruct (comprehension_total (detail "relationshipAccuracy") runs)
    as [l7 ->].
  { apply Forall_well_formed; [|exact Hwf]. intros run H.
    destruct (well_formed_run_fields run H)
      as (_ & _ & _ & _ & _ & _ & (v & ? & _) & _). eauto. }
  destruct (comprehension_total (detail "averagePropertiesPerNode") runs)
    as [l8 ->].
  { apply Forall_well_formed; [|exact Hwf]. intros run H.
    destruct (well_formed_run_fields run H)
      as (_ & _ & _ & _ & _ & _ & _ & (v & ? & _)). eauto. }
  simpl. eauto.
Qed.

Lemma projects_same_length (runs : list value) (s : series datetime) :
  projects fromisoformat runs s -> same_length (List.length runs) s.
Proof.
  intros (H1 & H2 & H3 & H4 & H5 & H6 & H7 & H8).
  repeat split; symmetry; eapply Forall2_length; eassumption.
Qed.

Lemma extractSeries_projects (runs : list value) (s : series datetime) :
  extractSeries fromisoformat (VList runs) = Ok s -> projects fromisoformat runs s.
Proof.
  unfold extractSeries. simpl. intros H.
  repeat (apply bind_Ok in H; destruct H as (? & ? & H)).
  injection H as H. subst s. unfold projects. simpl.
  repeat split; now apply comprehension_Forall2.
Qed.
End ExtractionFacts.



(** ** Rolling averages *)

Section ConvolutionFacts.
Context {num : Type} {arith : Arithmetic num}.

Lemma length_correlate_valid (a v : list num) :
  List.length (correlate_valid a v) = List.length a - List.length v + 1.
Proof. unfold correlate_valid. now rewrite length_map, length_seq. Qed.

Lemma nth_correlate_valid (a v : list num) (i : nat) (d : num) :
  i < List.length a - List.length v + 1 ->
  nth i (correlate_valid a v) d = dot (skipn i a) v.
Proof.
  intros Hi. unfold correlate_valid.
  rewrite (nth_indep _ d (dot (skipn 0 a) v))
    by now rewrite length_map, length_seq.
  rewrite (map_nth (fun i => dot (skipn i a) v)).
  now rewrite seq_nth.
Qed.

(** Only as many elements as the second argument has are read. *)
Lemma dot_from_firstn (acc : num) (xs ys : list num) :
  dot_from acc xs ys = dot_from acc (firstn (List.length ys) xs) ys.
Proof.
  revert acc ys. induction xs as [|x xs IH]; intros acc [|y ys];
    try reflexivity.
  simpl. apply IH.
Qed.

Lemma np_convolve_valid_nonempty (a v : list num) :
  a <> [] -> v <> [] ->
  np_convolve_valid a v =
  Ok (if Nat.ltb (List.length a) (List.length v)
      then correlate_valid v (List.rev a)
      else correlate_valid a (List.rev v)).
Proof.
  intros Ha Hv. unfold np_convolve_valid.
  destruct (Nat.ltb (List.length a) (List.length v));
    destruct a, v; congruence.
Qed.

Lemma length_weights (window : Z) :
  List.length (weights window) = Z.to_nat window.
Proof. apply repeat_length. Qed.

Lemma rollingAverage_nonempty (series : list num) (window : Z) :
  (0 < window)%Z -> series <> [] ->
  rollingAverage series window =
  Ok (if Nat.ltb (List.length series) (Z.to_nat window)
      then correlate_valid (weights window) (List.rev series)
      else correlate_valid series (weights window)).
Proof.
  intros Hw Hs. unfold rollingAverage, np_ones.
  destruct (Z.ltb_spec window 0); [lia|]. simpl.
  rewrite map_repeat. fold (weights window).
  rewrite np_convolve_valid_nonempty; auto.
  - unfold weights at 1 3. now rewrite rev_repeat, repeat_length.
  - unfold weights. destruct (Z.to_nat window) eqn:E; [lia|discriminate].
Qed.

Lemma rollingAverage_empty (window : Z) :
  (0 < window)%Z -> rollingAverage [] window = Raise ValueError.
Proof.
  intros Hw. unfold rollingAverage, np_ones.
  destruct (Z.ltb_spec window 0); [lia|]. simpl.
  unfold np_convolve_valid. rewrite length_map, repeat_length.
  destruct (Z.to_nat window) eqn:E; [lia|reflexivity].
Qed.


(** When the window fits, position [i] of the result is the sum of
    products over the [window] elements that start at position [i]. *)
Lemma rollingAverage_fits (series : list num) (window : Z) :
  (0 < window)%Z -> (window <= Z.of_nat (List.length series))%Z ->
  exists out,
    rollingAverage series window = Ok out
    /\ List.length out = List.length series - Z.to_nat window + 1
    /\ forall i d, i < List.length out ->
         nth i out d
         = dot (firstn (Z.to_nat window) (skipn i series)) (weights window).
Proof.
  intros Hw Hfit.
  assert (Hs : series <> [])
    by (destruct series; [simpl in Hfit; lia|congruence]).
  rewrite (rollingAverage_nonempty _ _ Hw Hs).
  destruct (Nat.ltb_spec (List.length series) (Z.to_nat window)); [lia|].
  eexists. split; [reflexivity|].
  rewrite length_correlate_valid, length_weights. split; [reflexivity|].
  intros i d Hi.
  rewrite nth_correlate_valid by (rewrite length_weights; exact Hi).
  unfold dot. rewrite dot_from_firstn. now rewrite length_weights.
Qed.

(** With a single weight each position holds one product. *)
Lemma correlate_valid_single (a : list num) (w : num) :
  a <> [] ->
  correlate_valid a [w]
  = map (fun x => num_add num_zero (num_mul x w)) a.
Proof.
  intros Ha. unfold correlate_valid. simpl List.length.
  replace (List.length a - 1 + 1) with (List.length a)
    by (destruct a; [congruence|simpl; lia]).
  clear Ha. induction a as [|x a IH]; [reflexivity|].
  simpl List.length. rewrite <- cons_seq, <- seq_shift, map_cons, map_map.
  cbn [skipn]. rewrite IH. cbn [map]. f_equal.
  unfold dot. cbn [dot_from]. now destruct a.
Qed.
End ConvolutionFacts.

(** *** Binary64: multiplying by one and adding to zero *)

Lemma binary64_mul_one (x : spec_float) :
  Binary64.valid x = true ->
  SFmul Binary64.prec Binary64.emax x (Binary64.of_Z 1) = x.
Proof.
  destruct x as [s|s| |s m e]; intros Hv; try reflexivity.
  - simpl. now rewrite xorb_false_r.
  - simpl. now rewrite xorb_false_r.
  - unfold Binary64.valid, valid_binary, bounded, canonical_mantissa in Hv.
    apply andb_true_iff in Hv as [Hc Hb]. apply Z.eqb_eq in Hc.
    change (Binary64.of_Z 1)
      with (S754_finite false 4503599627370496 (-52)).
    cbn [SFmul]. rewrite xorb_false_r.
    rewrite Pos.mul_comm.
    change (4503599627370496 * m)%positive
      with (Pos.iter xO m 52%positive).
    unfold binary_round_aux.
    assert (D : Zdigits2 (Zpos (Pos.iter xO m 52))
                = (Zpos (digits2_pos m) + 52)%Z).
    { cbn [Pos.iter Zdigits2 digits2_pos]. rewrite !Pos2Z.inj_succ. lia. }
    unfold shr_fexp at 1. rewrite D.
    assert (E1 : (Z.pos (digits2_pos m) + 52 + (e + -52)
                  = Z.pos (digits2_pos m) + e)%Z) by lia.
    rewrite E1, Hc.
    assert (E2 : (e - (e + -52) = 52)%Z) by lia.
    rewrite E2.
    cbn [shr shr_record_of_loc iter_pos Pos.iter shr_1 orb].
    cbn [loc_of_shr_record shr_m round_nearest_even].
    assert (E3 : (e + -52 + 52 = e)%Z) by lia.
    rewrite E3.
    unfold shr_fexp. cbn [Zdigits2]. rewrite Hc.
    rewrite Z.sub_diag. cbn [shr shr_m shr_record_of_loc].
    now rewrite Hb.
Qed.

Lemma binary64_add_zero (x : spec_float) :
  SFadd Binary64.prec Binary64.emax (S754_zero false) x
  = Binary64.unsigned_zero x.
Proof. destruct x as [[|]|s| |s m e]; reflexivity. Qed.

Lemma binary64_unit_weight : weights (num := spec_float) 1 = [Binary64.of_Z 1].
Proof. reflexivity. Qed.

(** *** Exact arithmetic: the sum of products is the mean *)

Lemma rational_dot_repeat (c acc : Q) (n : nat) (l : list Q) :
  (dot_from acc l (repeat c n) == acc + Qsum (firstn n l) * c)%Q.
Proof.
  revert acc l. induction n as [|n IH]; intros acc l.
  - destruct l; simpl; ring.
  - destruct l as [|x l]; simpl; [ring|].
    rewrite IH. cbn [num_add num_mul rational]. ring.
Qed.

Lemma rational_window_mean (window : Z) (l : list Q) :
  (0 < window)%Z -> List.length l = Z.to_nat window ->
  (dot l (weights window) == mean l)%Q.
Proof.
  intros Hw Hl. unfold dot, weights. rewrite rational_dot_repeat.
  rewrite <- Hl, firstn_all. unfold mean. rewrite Hl, Z2Nat.id by lia.
  cbn [num_zero num_one num_div num_of_int rational].
  unfold Qdiv. ring.
Qed.

(** C2 (as amended): with a positive window that fits in the series
    ([window <= len(series)]) the rolling average returns
    [len(series) - window + 1] values, which is
    [max(0, len(series) - window + 1)]; with [window = 1] they are the
    values of the series, a negative zero coming out as zero.  On the empty
    series the rolling average raises [ValueError].  (A window longer than
    a non-empty series is left open.) *)
Theorem rollingAverage_length (series : list spec_float) (window : Z) :
  (0 < window)%Z ->
  ((window <= Z.of_nat (List.length series))%Z ->
   exists out,
     rollingAverage series window = Ok out
     /\ Z.of_nat (List.length out)
        = (Z.of_nat (List.length series) - window + 1)%Z
     /\ Z.of_nat (List.length out)
        = Z.max 0 (Z.of_nat (List.length series) - window + 1)
     /\ (window = 1%Z -> forallb Binary64.valid series = true ->
         out = map Binary64.unsigned_zero series))
  /\ (series = [] -> rollingAverage series window = Raise ValueError).
Proof.
  intros Hw. split.
  - intros Hfit.
    assert (Hs : series <> [])
      by (destruct series; [simpl in Hfit; lia|congruence]).
    rewrite (rollingAverage_nonempty _ _ Hw Hs).
    destruct (Nat.ltb_spec (List.length series) (Z.to_nat window)); [lia|].
    eexists. split; [reflexivity|].
    rewrite length_correlate_valid, length_weights.
    split; [lia|]. split; [lia|].
    intros -> Hv. rewrite binary64_unit_weight.
    rewrite (correlate_valid_single _ _ Hs).
    apply map_ext_in. intros x Hx.
    rewrite forallb_forall in Hv.
    cbn [num_add num_mul num_zero binary64].
    now rewrite (binary64_mul_one x (Hv x Hx)), binary64_add_zero.
  - intros ->. now apply rollingAverage_empty.
Qed.

Lemma rollingAverage_length_witness :
  (exists out,
     rollingAverage
       [Binary64.ratio 5 2; Binary64.of_Z 7; Binary64.ratio 1 3] 1 = Ok out
     /\ Z.of_nat (List.length out) = (3 - 1 + 1)%Z
     /\ Z.of_nat (List.length out) = Z.max 0 (3 - 1 + 1)
     /\ out = [Binary64.ratio 5 2; Binary64.of_Z 7; Binary64.ratio 1 3])
  /\ rollingAverage (num := spec_float) [] 3 = Raise ValueError.
Proof.
  split.
  - destruct (rollingAverage_length
                [Binary64.ratio 5 2; Binary64.of_Z 7; Binary64.ratio 1 3] 1
                eq_refl) as [H _].
    destruct H as (out & E & L1 & L2 & H1); [discriminate|].
    exists out. split; [exact E|]. split; [exact L1|].
    split; [exact L2|exact (H1 eq_refl eq_refl)].
  - destruct (rollingAverage_length [] 3 eq_refl) as [_ H].
    exact (H eq_refl).
Defined.

(** C2, counterexample: on the empty series there is no output at all,
    where the claim has one of length [max(0, 0 - 3 + 1) = 0]. *)
Lemma rollingAverage_length_counterexample :
  rollingAverage (num := spec_float) [] 3 = Raise ValueError
  /\ forall out : list spec_float,
       rollingAverage (num := spec_float) [] 3 <> Ok out.
Proof. split; [reflexivity|]. intros out H. discriminate. Qed.

(** C6 (as amended): when the window fits, the rolling average returns
    [len - window + 1] values and the value at position [i] is computed
    from the [window] elements of the series that start at position [i],
    and from no other: it is the sum, added up from the left in binary64,
    of their products with the weight [1/window].  Computed on rationals
    without rounding, that sum is the arithmetic mean of the window.  On
    [2, 4, 6] with a window of 3 the rolling average is [4.0]. *)
Theorem rollingAverage_mean (series : list spec_float) (window : Z) :
  (0 < window)%Z -> (window <= Z.of_nat (List.length series))%Z ->
  (exists out,
     rollingAverage series window = Ok out
     /\ List.length out = List.length series - Z.to_nat window + 1
     /\ forall i, i < List.length out ->
          nth i out S754_nan
          = dot (firstn (Z.to_nat window) (skipn i series)) (weights window))
  /\ (forall reals : list Q,
        List.length reals = List.length series ->
        exists out,
          rollingAverage reals window = Ok out
          /\ List.length out = List.length reals - Z.to_nat window + 1
          /\ forall i, i < List.length out ->
               (nth i out 0 == mean (firstn (Z.to_nat window) (skipn i reals)))%Q)
  /\ rollingAverage [Binary64.of_Z 2; Binary64.of_Z 4; Binary64.of_Z 6] 3
     = Ok [Binary64.of_Z 4].
Proof.
  intros Hw Hfit. split; [|split; [|reflexivity]].
  - destruct (rollingAverage_fits series window Hw Hfit) as (out & E & L & N).
    exists out. split; [exact E|]. split; [exact L|].
    intros i Hi. now apply N.
  - intros reals Hl. rewrite <- Hl in Hfit.
    destruct (rollingAverage_fits reals window Hw Hfit) as (out & E & L & N).
    exists out. split; [exact E|]. split; [exact L|].
    intros i Hi. rewrite (N i 0%Q Hi).
    apply rational_window_mean; [exact Hw|].
    rewrite length_firstn, length_skipn. lia.
Qed.

Lemma rollingAverage_mean_witness :
  (exists out,
     rollingAverage [Binary64.of_Z 1; Binary64.of_Z 2; Binary64.of_Z 4] 3
     = Ok out
     /\ List.length out = 3 - Z.to_nat 3 + 1
     /\ forall i, i < List.length out ->
          nth i out S754_nan
          = dot (firstn (Z.to_nat 3)
                   (skipn i [Binary64.of_Z 1; Binary64.of_Z 2;
                             Binary64.of_Z 4]))
              (weights 3))
  /\ (forall reals : list Q,
        List.length reals = 3 ->
        exists out,
          rollingAverage reals 3 = Ok out
          /\ List.length out = List.length reals - Z.to_nat 3 + 1
          /\ forall i, i < List.length out ->
               (nth i out 0
                == mean (firstn (Z.to_nat 3) (skipn i reals)))%Q)
  /\ rollingAverage [Binary64.of_Z 2; Binary64.of_Z 4; Binary64.of_Z 6] 3
     = Ok [Binary64.of_Z 4].
Proof.
  apply (rollingAverage_mean
           [Binary64.of_Z 1; Binary64.of_Z 2; Binary64.of_Z 4] 3);
    [reflexivity|discriminate].
Defined.

(** C6, counterexample: the mean of 7, 7, 7 is 7; the rolling average is
    the binary64 value [7881299347898367 * 2^-50], one unit in the last
    place below 7, which Python prints as 6.999999999999999. *)
Lemma rollingAverage_mean_counterexample :
  rollingAverage [Binary64.of_Z 7; Binary64.of_Z 7; Binary64.of_Z 7] 3
  = Ok [S754_finite false 7881299347898367 (-50)]
  /\ Binary64.of_Z 7 = S754_finite false 7881299347898368 (-50)
  /\ SFltb (S754_finite false 7881299347898367 (-50)) (Binary64.of_Z 7) = true
  /\ (mean [7 # 1; 7 # 1; 7 # 1] == 7 # 1)%Q
  /\ ~ (Binary64.to_Q (S754_finite false 7881299347898367 (-50))
        == mean [7 # 1; 7 # 1; 7 # 1])%Q.
Proof. repeat split. intros H. discriminate H. Qed.

(** ** The parse step and the first read of the summary *)

Lemma Forall2_Forall_r {A B : Type} (R : A -> B -> Prop) (P : A -> Prop)
  (Q : B -> Prop) (xs : list A) (ys : list B) :
  (forall x y, P x -> R x y -> Q y) ->
  Forall P xs -> Forall2 R xs ys -> Forall Q ys.
Proof.
  intros HQ HP HR. induction HR as [|x y xs ys Hxy _ IH]; [constructor|].
  inversion HP; subst. constructor; eauto.
Qed.

Lemma to_float_numbers (vs : list value) :
  Forall (fun v => is_number v = true) vs ->
  exists qs, comprehension to_float vs = Ok qs
             /\ List.length qs = List.length vs.
Proof.
  intros H. destruct (comprehension_total to_float vs) as [qs Hqs].
  - eapply Forall_impl; [|exact H]. intros [| | | | | |]; simpl;
      try discriminate; eauto.
  - exists qs. split; [exact Hqs|]. now apply (comprehension_length to_float).
Qed.

Section ScriptFacts.
Context {datetime : Type} (fromisoformat : string -> result datetime).



(** The parse step on a document with well-formed [runs]: it reads no
    other key of the document. *)
Lemma parse_returns (items : list (string * value)) (runs : list value) :
  lookup "runs" items = Some (VList runs) ->
  forallb (well_formed_run fromisoformat) runs = true ->
  exists s, parse fromisoformat (Ok (VDict items)) = Ok (VDict items, s)
            /\ projects fromisoformat runs s.
Proof.
  intros Hr Hwf. unfold parse. simpl. rewrite Hr. simpl.
  destruct (extractSeries_total fromisoformat runs Hwf) as [s Hs].
  rewrite Hs. simpl. exists s. split; [reflexivity|].
  now apply extractSeries_projects.
Qed.
End ScriptFacts.

(** C3 (as amended): the parse step propagates the decoder's error on
    malformed JSON and raises [KeyError] when the document has no [runs]
    key; whenever [runs] is present and well formed it returns the document
    and the lists, so a missing [summary] key is not an error of this
    step. *)
Theorem parse_failures
  (datetime : Type) (fromisoformat : string -> result datetime) :
  parse fromisoformat (Raise JSONDecodeError) = Raise JSONDecodeError
  /\ (forall items,
        lookup "runs" items = None ->
        parse fromisoformat (Ok (VDict items)) = Raise (KeyError "runs"))
  /\ (forall items runs,
        lookup "runs" items = Some (VList runs) ->
        forallb (well_formed_run fromisoformat) runs = true ->
        exists s, parse fromisoformat (Ok (VDict items)) = Ok (VDict items, s)).
Proof.
  split; [reflexivity|]. split.
  - intros items H. unfold parse. simpl. now rewrite H.
  - intros items runs Hr Hwf.
    destruct (parse_returns fromisoformat items runs Hr Hwf) as (s & Hs & _).
    eauto.
Qed.

Lemma parse_failures_witness :
  parse keep_text (Raise JSONDecodeError) = Raise JSONDecodeError
  /\ parse keep_text (Ok (VDict [("summary", sample_summary)]))
     = Raise (KeyError "runs")
  /\ exists s, parse keep_text (Ok (VDict sample_items_without_summary))
               = Ok (VDict sample_items_without_summary, s).
Proof.
  destruct (parse_failures string keep_text) as (H1 & H2 & H3).
  split; [exact H1|]. split.
  - apply H2. reflexivity.
  - apply (H3 sample_items_without_summary sample_runs); reflexivity.
Defined.

(** C3, counterexample: the document has [runs] and no [summary]; the
    parse step returns it together with the extracted lists. *)
Lemma parse_missing_summary_counterexample :
  lookup "summary" sample_items_without_summary = None
  /\ exists s,
       parse keep_text (Ok (VDict sample_items_without_summary))
       = Ok (VDict sample_items_without_summary, s)
       /\ scores s = [VInt 10; VInt 20].
Proof. split; [reflexivity|]. eexists. split; reflexivity. Qed.



(** ** Fixed-point rendering *)















(** ** The printed summary *)

Lemma then_Ok {A B : Type} (m : output A) (k : A -> output B)
  (out : list string) (b : B) :
  then_ m k = (out, Ok b) ->
  exists w a w', m = (w, Ok a) /\ k a = (w', Ok b) /\ out = w ++ w'.
Proof.
  destruct m as [w [a|e]]; simpl; [|discriminate].
  destruct (k a) as [w' r] eqn:E. intros H. injection H as <- ->.
  eauto 6.
Qed.

Lemma print_Ok (line : string) (w : list string) (u : unit) :
  print line = (w, Ok u) -> w = [line].
Proof. unfold print. congruence. Qed.

Lemma eval_Ok {A : Type} (r : result A) (w : list string) (a : A) :
  eval r = (w, Ok a) -> r = Ok a /\ w = [].
Proof. unfold eval. intros H. injection H as -> <-. auto. Qed.


Ltac step_print H :=
  let w := fresh "w" in
  let o := fresh "o" in
  let E := fresh "E" in
  apply then_Ok in H as (w & [] & o & E & H & ->);
  apply print_Ok in E as ->.


Ltac step_eval H a Ea :=
  let w := fresh "w" in
  let o := fresh "o" in
  let E := fresh "E" in
  apply then_Ok in H as (w & a & o & E & H & ->);
  apply eval_Ok in E as (Ea & ->).


(** What the script has done when it ends without an exception. *)
Lemma script_output {datetime : Type}
  (fromisoformat : string -> result datetime) (repr_other : value -> string)
  (json_file_path : string) (loaded : result value) (out : list string) :
  script fromisoformat repr_other json_file_path loaded = (out, Ok tt) ->
  exists data s r lines,
    parse fromisoformat loaded = Ok (data, s)
    /\ rolling s = Ok r
    /\ plot (snd r) (fst (fst (fst r))) = Ok tt
    /\ print_summary repr_other json_file_path data = (lines, Ok tt)
    /\ out = ("Plot saved to: " ++ output_image_path json_file_path)%string
             :: lines.
Proof.
  intros H. unfold script in H.
  step_eval H ds Eds. step_eval H r Er.
  step_eval H a1 E1. step_eval H a2 E2. step_eval H p1 P1.
  step_eval H a3 E3. step_eval H p2 P2. step_eval H p3 P3.
  step_print H.
  destruct ds as [data s]. destruct p1. exists data, s, r. eexists.
  split; [exact Eds|]. split; [exact Er|]. split; [exact P1|].
  split; [exact H|reflexivity].
Qed.





(** * Further properties of the script *)

(** ** The key of a conventional name *)

(** X1: for a name that ends in [-<timestamp>.json], where the time stamp
    has neither ['-'] nor ['.'], the sort key, and so the suffix of the
    image name, is the time stamp. *)
Theorem sort_key_conventional (stem timestamp : string) :
  Str.contains "-" timestamp = false ->
  Str.contains "." timestamp = false ->
  sort_key (stem ++ "-" ++ timestamp ++ ".json") = timestamp
  /\ timestamp_part (stem ++ "-" ++ timestamp ++ ".json") = timestamp.
Proof.
  intros Hd Hp. unfold timestamp_part, sort_key.
  change ((stem ++ "-" ++ timestamp ++ ".json")%string)
    with ((stem ++ String "-" (timestamp ++ ".json"))%string).
  rewrite last_piece_after_separator
    by (rewrite contains_app, Hd; reflexivity).
  now rewrite (replace_json_suffix _ Hp).
Qed.

Lemma sort_key_conventional_witness :
  sort_key ("eval/eval-results-demo-0" ++ "-" ++ "1700000000" ++ ".json")
  = "1700000000"
  /\ timestamp_part
       ("eval/eval-results-demo-0" ++ "-" ++ "1700000000" ++ ".json")
     = "1700000000".
Proof.
  apply (sort_key_conventional "eval/eval-results-demo-0" "1700000000");
    reflexivity.
Defined.

(** ** The path of the image *)

Lemma rfind_end_absent (c : ascii) (s : string) :
  Str.contains c s = false -> Path.rfind_end c s = 0.
Proof.
  induction s as [|d r IH]; simpl; [reflexivity|].
  intros H. apply orb_false_iff in H as [Hd Hr].
  now rewrite (IH Hr), Hd.
Qed.

Lemma rfind_end_last (c : ascii) (d n : string) :
  Str.contains c n = false ->
  Path.rfind_end c (d ++ String c n) = String.length d + 1.
Proof.
  intros Hn. induction d as [|x r IH]; simpl.
  - now rewrite (rfind_end_absent _ _ Hn), Ascii.eqb_refl.
  - rewrite IH. now rewrite Nat.add_1_r.
Qed.

Lemma substring_head (c : ascii) (d n : string) :
  substring 0 (String.length d + 1) (d ++ String c n)
  = (d ++ String c "")%string.
Proof.
  induction d as [|x r IH]; simpl.
  - now destruct n.
  - now rewrite IH.
Qed.

Lemma all_char_snoc (c : ascii) (d : string) :
  Path.all_char c (d ++ String c "") = Path.all_char c d.
Proof.
  induction d as [|x r IH]; simpl.
  - now rewrite Ascii.eqb_refl.
  - now rewrite IH.
Qed.

Lemma rstrip_snoc (c : ascii) (d : string) :
  Path.rstrip c (d ++ String c "") = Path.rstrip c d.
Proof.
  induction d as [|x r IH]; simpl.
  - now rewrite Ascii.eqb_refl.
  - now rewrite IH.
Qed.

Lemma rstrip_not_endswith (c : ascii) (d : string) :
  d <> "" -> Path.endswith c d = false ->
  Path.rstrip c d = d /\ Path.all_char c d = false.
Proof.
  induction d as [|x r IH]; [congruence|]. intros _ He.
  destruct r as [|y r'].
  - simpl in *. now rewrite He.
  - destruct IH as [Hr Ha]; [discriminate|exact He|].
    remember (String y r') as r eqn:Er.
    cbn [Path.rstrip Path.all_char]. rewrite Hr, Ha, Er.
    split; [reflexivity|apply andb_false_r].
Qed.

Lemma append_nonempty (d t : string) : t <> "" -> (d ++ t)%string <> "".
Proof. destruct d; simpl; [auto|discriminate]. Qed.

Lemma dirname_of_file (dir name : string) :
  Str.contains "/" name = false ->
  Path.dirname (dir ++ String "/" name)
  = if (negb (Path.all_char "/" dir))%bool then Path.rstrip "/" dir
    else (dir ++ "/")%string.
Proof.
  intros Hn. unfold Path.dirname.
  rewrite (rfind_end_last _ _ _ Hn), substring_head, all_char_snoc, rstrip_snoc.
  assert (E : String.eqb (dir ++ "/") "" = false)
    by (apply String.eqb_neq, append_nonempty; discriminate).
  now rewrite E.
Qed.

(** X2: the image goes into the directory of the input file: for a path
    [dir/name], where [name] has no separator and [dir] does not end in
    one, the image path is [dir/eval_results_plot-<key>.png], [<key>]
    being the time stamp part of the input path. *)
Theorem output_image_path_beside_input (dir name : string) :
  Str.contains "/" name = false ->
  Path.endswith "/" dir = false ->
  output_image_path (dir ++ "/" ++ name)
  = (dir ++ "/" ++ "eval_results_plot-"
     ++ timestamp_part (dir ++ "/" ++ name) ++ ".png")%string
  /\ (dir <> "" -> Path.dirname (dir ++ "/" ++ name) = dir).
Proof.
  intros Hn He. unfold output_image_path.
  change ((dir ++ "/" ++ name)%string) with ((dir ++ String "/" name)%string).
  rewrite (dirname_of_file _ _ Hn).
  destruct dir as [|x r].
  - split; [reflexivity|congruence].
  - destruct (rstrip_not_endswith "/" (String x r)) as [Hr Ha];
      [discriminate|exact He|].
    rewrite Ha, Hr. split; [|reflexivity].
    unfold Path.join. cbn [negb]. rewrite He. reflexivity.
Qed.

Lemma output_image_path_beside_input_witness :
  output_image_path ("eval" ++ "/" ++ "eval-results-demo-0-1700000000.json")
  = ("eval" ++ "/" ++ "eval_results_plot-"
     ++ timestamp_part
          ("eval" ++ "/" ++ "eval-results-demo-0-1700000000.json")
     ++ ".png")%string
  /\ ("eval" <> "" ->
      Path.dirname ("eval" ++ "/" ++ "eval-results-demo-0-1700000000.json")
      = "eval").
Proof.
  apply (output_image_path_beside_input
           "eval" "eval-results-demo-0-1700000000.json"); reflexivity.
Defined.

(** ** Line 14 as a stable sort *)

Section Stability.
Context {A : Type} (key : A -> string).

Lemma insert_desc_filter (k : string) (x : A) (l : list A) :
  filter (fun y => String.eqb (key y) k) (insert_desc key x l)
  = filter (fun y => String.eqb (key y) k) (x :: l).
Proof.
  induction l as [|y l IH]; [reflexivity|].
  cbn [insert_desc]. destruct (String.ltb (key x) (key y)) eqn:Hxy;
    [|reflexivity].
  cbn [filter] in *. rewrite IH.
  destruct (String.eqb_spec (key x) k) as [Hx|]; [|reflexivity].
  destruct (String.eqb_spec (key y) k) as [Hy|]; [|reflexivity].
  rewrite Hx, <- Hy, ltb_irrefl in Hxy. discriminate.
Qed.

Lemma sort_desc_filter (k : string) (l : list A) :
  filter (fun y => String.eqb (key y) k) (sort_desc key l)
  = filter (fun y => String.eqb (key y) k) l.
Proof.
  induction l as [|x l IH]; [reflexivity|].
  cbn [sort_desc]. rewrite insert_desc_filter. cbn [filter].
  now rewrite IH.
Qed.
End Stability.

(** X3: after line 14 the list holds the same paths, each as often as
    before, in non-increasing order of their keys, and the paths that
    share a key are in the order in which [glob] returned them. *)
Theorem sort_desc_stable_sort (eval_files : list string) :
  Permutation eval_files (sort_desc sort_key eval_files)
  /\ Sorted (desc sort_key) (sort_desc sort_key eval_files)
  /\ forall k,
       filter (fun x => String.eqb (sort_key x) k)
         (sort_desc sort_key eval_files)
       = filter (fun x => String.eqb (sort_key x) k) eval_files.
Proof.
  split; [apply sort_desc_perm|]. split; [apply sort_desc_sorted|].
  intros k. apply sort_desc_filter.
Qed.

(** ** What the time stamp parser is given *)



(** ** Which runs the extraction accepts *)

Lemma comprehension_raises {A B : Type} (f : A -> result B) (e : exn)
  (xs : list A) :
  Forall (fun x => (exists y, f x = Ok y) \/ f x = Raise e) xs ->
  Exists (fun x => f x = Raise e) xs ->
  comprehension f xs = Raise e.
Proof.
  induction 1 as [|x xs [[y Hy]|Hx] _ IH]; intros Hex.
  - inversion Hex.
  - simpl. rewrite Hy. simpl. inversion Hex as [? ? H|? ? H]; subst.
    + congruence.
    + now rewrite (IH H).
  - simpl. now rewrite Hx.
Qed.

Lemma has_key_getitem (name : string) (obj : value) :
  has_key name obj = true <-> exists v, getitem obj name = Ok v.
Proof.
  unfold has_key. destruct (getitem obj name) as [v|e]; split;
    try discriminate; eauto.
  intros [v H]. discriminate.
Qed.

Section Extractable.
Context {datetime : Type} (fromisoformat : string -> result datetime).

Lemma extractable_fields (run : value) :
  extractable fromisoformat run = true <->
  (exists v, getitem run "runNumber" = Ok v)
  /\ (exists v, getitem run "score" = Ok v)
  /\ (exists t, timestamp_of fromisoformat run = Ok t)
  /\ (exists v, detail "nodesCreated" run = Ok v)
  /\ (exists v, detail "edgesCreated" run = Ok v)
  /\ (exists v, detail "propertyCoverage" run = Ok v)
  /\ (exists v, detail "relationshipAccuracy" run = Ok v)
  /\ (exists v, detail "averagePropertiesPerNode" run = Ok v).
Proof.
  unfold extractable, detail. rewrite !andb_true_iff, !has_key_getitem.
  destruct (timestamp_of fromisoformat run) as [t|e];
    destruct (getitem run "details") as [details|e']; simpl;
    rewrite ?andb_true_iff, ?has_key_getitem.
  - intuition eauto.
  - split; [intuition discriminate|].
    intros (_ & _ & _ & [v H] & _). discriminate.
  - split; [intuition discriminate|].
    intros (_ & _ & [v H] & _). discriminate.
  - split; [intuition discriminate|].
    intros (_ & _ & [v H] & _). discriminate.
Qed.

Lemma Forall_extractable (P : value -> Prop) (runs : list value) :
  (forall run, extractable fromisoformat run = true -> P run) ->
  forallb (extractable fromisoformat) runs = true -> Forall P runs.
Proof.
  intros HP H. rewrite forallb_forall in H. apply Forall_forall. auto.
Qed.

Lemma extractSeries_extractable (runs : list value) :
  forallb (extractable fromisoformat) runs = true ->
  exists s, extractSeries fromisoformat (VList runs) = Ok s.
Proof.
  intros Hx. unfold extractSeries. simpl.
  assert (F : forall (B : Type) (f : value -> result B),
            (forall run, extractable fromisoformat run = true ->
                         exists y, f run = Ok y) ->
            exists ys, comprehension f runs = Ok ys).
  { intros B f Hf. apply comprehension_total.
    now apply Forall_extractable. }
  destruct (F _ (fun run => getitem run "runNumber")) as [l1 ->];
    [intros run H; apply extractable_fields in H; tauto|].
  destruct (F _ (fun run => getitem run "score")) as [l2 ->];
    [intros run H; apply extractable_fields in H; tauto|].
  destruct (F _ (timestamp_of fromisoformat)) as [l3 ->];
    [intros run H; apply extractable_fields in H; tauto|].
  destruct (F _ (detail "nodesCreated")) as [l4 ->];
    [intros run H; apply extractable_fields in H; tauto|].
  destruct (F _ (detail "edgesCreated")) as [l5 ->];
    [intros run H; apply extractable_fields in H; tauto|].
  destruct (F _ (detail "propertyCoverage")) as [l6 ->];
    [intros run H; apply extractable_fields in H; tauto|].
  destruct (F _ (detail "relationshipAccuracy")) as [l7 ->];
    [intros run H; apply extractable_fields in H; tauto|].
  destruct (F _ (detail "averagePropertiesPerNode")) as [l8 ->];
    [intros run H; apply extractable_fields in H; tauto|].
  simpl. eauto.
Qed.

Lemma projects_extractable (runs : list value) (s : series datetime) :
  projects fromisoformat runs s ->
  forallb (extractable fromisoformat) runs = true.
Proof.
  intros (H1 & H2 & H3 & H4 & H5 & H6 & H7 & H8).
  apply forallb_forall. intros run Hin.
  apply extractable_fields.
  assert (G : forall (B : Type) (R : value -> B -> Prop) (l : list B),
            Forall2 R runs l -> exists y, R run y).
  { intros B R l HR. clear -HR Hin.
    induction HR as [|x y xs ys Hxy _ IH]; [contradiction|].
    destruct Hin as [->|Hin]; eauto. }
  split; [exact (G _ _ _ H1)|]. split; [exact (G _ _ _ H2)|].
  split; [exact (G _ _ _ H3)|]. split; [exact (G _ _ _ H4)|].
  split; [exact (G _ _ _ H5)|]. split; [exact (G _ _ _ H6)|].
  split; [exact (G _ _ _ H7)|exact (G _ _ _ H8)].
Qed.
End Extractable.

(** X5: the extraction returns exactly when every run has the four keys
    [runNumber], [score], [timestamp] and [details], the five keys of
    [details], and a time stamp that is a string the parser accepts.  The
    types of the other fields play no part. *)
Theorem extractSeries_returns_iff
  (datetime : Type) (fromisoformat : string -> result datetime)
  (runs : list value) :
  (exists s, extractSeries fromisoformat (VList runs) = Ok s)
  <-> forallb (extractable fromisoformat) runs = true.
Proof.
  split.
  - intros [s Hs]. apply (projects_extractable fromisoformat runs s).
    now apply extractSeries_projects.
  - apply extractSeries_extractable.
Qed.

Lemma extractSeries_returns_iff_witness :
  (exists s,
     extractSeries keep_text
       (VList [VDict [("runNumber", VStr "one"); ("score", VNone);
                      ("timestamp", VStr "Z");
                      ("details",
                       VDict [("nodesCreated", VNone);
                              ("edgesCreated", VNone);
                              ("propertyCoverage", VNone);
                              ("relationshipAccuracy", VNone);
                              ("averagePropertiesPerNode", VNone)])]])
     = Ok s)
  /\ ~ (exists s,
          extractSeries keep_text (VList [sample_run 1 10; VDict []]) = Ok s).
Proof.
  split.
  - apply (extractSeries_returns_iff string keep_text). reflexivity.
  - intros H. apply (extractSeries_returns_iff string keep_text) in H.
    discriminate.
Defined.

(** X6: when the runs are JSON objects and one of them has no
    [runNumber], the extraction raises [KeyError] for that key, whatever
    else the runs hold. *)
Theorem extractSeries_missing_runNumber
  (datetime : Type) (fromisoformat : string -> result datetime)
  (runs : list value) :
  forallb is_dict runs = true ->
  existsb (fun run => negb (has_key "runNumber" run)) runs = true ->
  extractSeries fromisoformat (VList runs) = Raise (KeyError "runNumber").
Proof.
  intros Hd Hm. unfold extractSeries. simpl.
  rewrite (comprehension_raises _ (KeyError "runNumber")); [reflexivity| |].
  - rewrite forallb_forall in Hd. apply Forall_forall. intros run Hin.
    specialize (Hd run Hin). destruct run; try discriminate.
    simpl. destruct (lookup "runNumber" items); eauto.
  - apply existsb_exists in Hm as (run & Hin & Hk).
    apply Exists_exists. exists run. split; [exact Hin|].
    rewrite forallb_forall in Hd. specialize (Hd run Hin).
    destruct run; try discriminate. unfold has_key in Hk. simpl in *.
    destruct (lookup "runNumber" items); [discriminate|reflexivity].
Qed.

Lemma extractSeries_missing_runNumber_witness :
  extractSeries keep_text
    (VList [sample_run 1 10; VDict [("score", VInt 20)]; VDict []])
  = Raise (KeyError "runNumber").
Proof.
  apply (extractSeries_missing_runNumber string keep_text); reflexivity.
Defined.

(** X7: a document whose [runs] is the empty list passes the parse step
    and then stops in the first rolling average with [ValueError], before
    the summary is read; the rest of the document plays no part. *)
Theorem empty_runs_stop_at_rolling
  (datetime : Type) (fromisoformat : string -> result datetime)
  (items : list (string * value)) :
  lookup "runs" items = Some (VList []) ->
  (exists s, parse fromisoformat (Ok (VDict items)) = Ok (VDict items, s)
             /\ rolling s = Raise ValueError)
  /\ script_to_average_line fromisoformat (Ok (VDict items))
     = Raise ValueError.
Proof.
  intros Hr. unfold script_to_average_line, parse. simpl. rewrite Hr. simpl.
  split; [|reflexivity]. eexists. split; reflexivity.
Qed.

Lemma empty_runs_stop_at_rolling_witness :
  (exists s,
     parse keep_text (Ok (VDict [("runs", VList []); ("summary", sample_summary)]))
     = Ok (VDict [("runs", VList []); ("summary", sample_summary)], s)
     /\ rolling s = Raise ValueError)
  /\ script_to_average_line keep_text
       (Ok (VDict [("runs", VList []); ("summary", sample_summary)]))
     = Raise ValueError.
Proof.
  apply (empty_runs_stop_at_rolling string keep_text). reflexivity.
Defined.


(** ** The rolling series and their run numbers *)

Lemma rolling_series_length (vs : list value) :
  Forall (fun v => is_number v = true) vs -> vs <> [] ->
  exists qs out,
    comprehension to_float vs = Ok qs
    /\ rollingAverage qs window_size = Ok out
    /\ List.length out = rolling_width (List.length vs).
Proof.
  intros Hn Hne. destruct (to_float_numbers vs Hn) as (qs & Hqs & Hlen).
  exists qs. eexists. split; [exact Hqs|].
  assert (Hq : qs <> [])
    by (destruct qs; [destruct vs; [congruence|discriminate]|discriminate]).
  split; [now apply rollingAverage_nonempty|].
  unfold rolling_width. rewrite <- Hlen.
  destruct (Nat.ltb (List.length qs) (Z.to_nat window_size));
    rewrite length_correlate_valid; unfold weights;
    rewrite ?length_rev, repeat_length; reflexivity.
Qed.

Lemma well_formed_numbers {datetime : Type}
  (fromisoformat : string -> result datetime)
  (runs : list value) (s : series datetime) :
  forallb (well_formed_run fromisoformat) runs = true ->
  projects fromisoformat runs s ->
  Forall (fun v => is_number v = true) (scores s)
  /\ Forall (fun v => is_number v = true) (nodes_created s)
  /\ Forall (fun v => is_number v = true) (edges_created s).
Proof.
  intros Hwf (_ & Hsc & _ & Hno & Hed & _).
  assert (Hruns : Forall (fun run => well_formed_run fromisoformat run = true)
                    runs) by (apply (Forall_well_formed fromisoformat); auto).
  repeat split.
  - eapply Forall2_Forall_r; [|exact Hruns|exact Hsc].
    intros run v Hr Hv. simpl in Hv.
    destruct (well_formed_run_fields _ run Hr) as (_ & (w & Hw & ?) & _).
    congruence.
  - eapply Forall2_Forall_r; [|exact Hruns|exact Hno].
    intros run v Hr Hv. simpl in Hv.
    destruct (well_formed_run_fields _ run Hr)
      as (_ & _ & _ & (w & Hw & ?) & _).
    congruence.
  - eapply Forall2_Forall_r; [|exact Hruns|exact Hed].
    intros run v Hr Hv. simpl in Hv.
    destruct (well_formed_run_fields _ run Hr)
      as (_ & _ & _ & _ & (w & Hw & ?) & _).
    congruence.
Qed.

Lemma rolling_lengths {datetime : Type}
  (fromisoformat : string -> result datetime)
  (runs : list value) (s : series datetime) :
  forallb (well_formed_run fromisoformat) runs = true ->
  runs <> [] ->
  extractSeries fromisoformat (VList runs) = Ok s ->
  exists rolling_scores rolling_nodes rolling_edges rolling_run_numbers,
    rolling s
    = Ok (rolling_scores, rolling_nodes, rolling_edges, rolling_run_numbers)
    /\ List.length rolling_scores = rolling_width (List.length runs)
    /\ List.length rolling_nodes = rolling_width (List.length runs)
    /\ List.length rolling_edges = rolling_width (List.length runs)
    /\ List.length rolling_run_numbers = List.length runs - 2
    /\ (List.length rolling_scores = List.length rolling_run_numbers
        <-> 3 <= List.length runs).
Proof.
  intros Hwf Hne Hs.
  pose proof (extractSeries_projects fromisoformat runs s Hs) as Hp.
  destruct (projects_same_length fromisoformat runs s Hp)
    as (L1 & L2 & _ & L4 & L5 & _).
  destruct (well_formed_numbers fromisoformat runs s Hwf Hp)
    as (N1 & N2 & N3).
  assert (Hn : List.length runs <> 0) by (destruct runs; [congruence|discriminate]).
  assert (Hlen : forall l : list value, List.length l = List.length runs -> l <> [])
    by (intros l E ->; simpl in E; congruence).
  destruct (rolling_series_length (scores s) N1 (Hlen _ L2))
    as (xs & o1 & E1 & R1 & W1).
  destruct (rolling_series_length (nodes_created s) N2 (Hlen _ L4))
    as (ns & o2 & E2 & R2 & W2).
  destruct (rolling_series_length (edges_created s) N3 (Hlen _ L5))
    as (es & o3 & E3 & R3 & W3).
  exists o1, o2, o3, (skipn (Z.to_nat (window_size - 1)) (run_numbers s)).
  split.
  { unfold rolling. rewrite E1. simpl. rewrite R1. simpl.
    rewrite E2. simpl. rewrite R2. simpl.
    rewrite E3. simpl. rewrite R3. reflexivity. }
  rewrite W1, W2, W3, L2, L4, L5, length_skipn, L1.
  change (Z.to_nat (window_size - 1)) with 2.
  repeat (split; [reflexivity|]).
  unfold rolling_width. change (Z.to_nat window_size) with 3.
  destruct (Nat.ltb_spec (List.length runs) 3); lia.
Qed.



(** ** Whole numbers in a fixed-point field *)









(** ** The whole script on a well-formed document *)

Lemma then_eval {A B : Type} (r : result A) (a : A) (k : A -> output B) :
  r = Ok a -> then_ (eval r) k = k a.
Proof.
  intros ->. unfold then_, eval. destruct (k a). reflexivity.
Qed.

Lemma then_print {B : Type} (line : string) (k : unit -> output B) :
  then_ (print line) k = (line :: fst (k tt), snd (k tt)).
Proof.
  unfold then_, print. destruct (k tt). reflexivity.
Qed.

Lemma format_value_finite (d : nat) (x : value) :
  is_finite_number x = true -> exists text, format_value d x = Ok text.
Proof.
  destruct x; try discriminate; simpl.
  - destruct (float_of_int _); [eauto|discriminate].
  - eauto.
Qed.

Lemma print_fixed_number (label : string) (d : nat) (v : result value)
  (x : value) :
  v = Ok x -> is_finite_number x = true ->
  exists text,
    print_fixed label d v = ([(label ++ text)%string], Ok tt).
Proof.
  intros -> Hx. destruct (format_value_finite d x Hx) as [text Ht].
  exists text. unfold print_fixed. simpl. rewrite Ht. reflexivity.
Qed.

Lemma for_each_print {A : Type} (g : A -> string) (xs : list A) :
  for_each xs (fun x => print (g x)) = (map g xs, Ok tt).
Proof.
  induction xs as [|x xs IH]; [reflexivity|].
  simpl. now rewrite IH.
Qed.

Lemma has_finite_field (name : string) (obj : value) :
  has_finite name obj = true ->
  exists x, getitem obj name = Ok x /\ is_finite_number x = true.
Proof.
  unfold has_finite. destruct (getitem obj name); [eauto|discriminate].
Qed.

Lemma finite_runs_well_formed {datetime : Type}
  (fromisoformat : string -> result datetime) (runs : list value) :
  forallb (finite_run fromisoformat) runs = true ->
  forallb (well_formed_run fromisoformat) runs = true.
Proof.
  induction runs as [|run runs IH]; [reflexivity|].
  simpl. rewrite !andb_true_iff. intros [Hrun Hruns].
  split; [|now apply IH].
  unfold finite_run in Hrun.
  apply andb_true_iff in Hrun as [Hrun _].
  apply andb_true_iff in Hrun as [Hrun _].
  now apply andb_true_iff in Hrun as [Hrun _].
Qed.

(** Lines 157-174 on a well-formed summary. *)
Lemma print_summary_returns
  (repr_other : value -> string) (json_file_path : string) (data : value) :
  well_formed_summary data = true ->
  exists lines avg problems strengths,
    print_summary repr_other json_file_path data = (lines, Ok tt)
    /\ average_line data = Ok avg
    /\ summary_field data "mainProblems" = Ok (VList problems)
    /\ summary_field data "strengths" = Ok (VList strengths)
    /\ skipn 10 lines
       = (newline ++ "Main Problems:")%string :: dashed repr_other problems
         ++ (newline ++ "Strengths:")%string :: dashed repr_other strengths
    /\ List.length lines
       = 12 + List.length problems + List.length strengths.
Proof.
  unfold well_formed_summary. intros H.
  destruct (getitem data "summary") as [summary|] eqn:Es; [|discriminate].
  rewrite !andb_true_iff in H.
  destruct H as [[[[[[[Havg Hmin] Hmax] Hmet] Hsd] Hcs] Hmp] Hst].
  destruct (getitem summary "averageMetrics") as [metrics|] eqn:Em;
    [|discriminate].
  rewrite !andb_true_iff in Hmet. destruct Hmet as [[[Hno Hed] Hpc] Hra].
  apply has_finite_field in Havg as (x1 & E1 & N1).
  apply has_key_getitem in Hmin as (lo & Elo).
  apply has_key_getitem in Hmax as (hi & Ehi).
  apply has_finite_field in Hno as (x2 & E2 & N2).
  apply has_finite_field in Hed as (x3 & E3 & N3).
  apply has_finite_field in Hpc as (x4 & E4 & N4).
  apply has_finite_field in Hra as (x5 & E5 & N5).
  apply has_finite_field in Hsd as (x6 & E6 & N6).
  apply has_finite_field in Hcs as (x7 & E7 & N7).
  destruct (getitem summary "mainProblems") as [[| | | | |problems|]|] eqn:Ep;
    try discriminate.
  destruct (getitem summary "strengths") as [[| | | | |strengths|]|] eqn:Et;
    try discriminate.
  assert (F : forall name v, getitem summary name = Ok v ->
                             summary_field data name = Ok v)
    by (intros name v Hv; unfold summary_field; now rewrite Es).
  assert (M : forall name v, getitem metrics name = Ok v ->
                             average_metric data name = Ok v)
    by (intros name v Hv; unfold average_metric;
        now rewrite (F _ _ Em)).
  destruct (print_fixed_number "Average Score: " 1 _ x1 (F _ _ E1) N1)
    as [t1 P1].
  destruct (print_fixed_number "Average Nodes Created: " 1 _ x2 (M _ _ E2) N2)
    as [t2 P2].
  destruct (print_fixed_number "Average Edges Created: " 1 _ x3 (M _ _ E3) N3)
    as [t3 P3].
  destruct (print_fixed_number "Average Property Coverage: " 2 _ x4
              (M _ _ E4) N4) as [t4 P4].
  destruct (print_fixed_number "Average Relationship Accuracy: " 2 _ x5
              (M _ _ E5) N5) as [t5 P5].
  destruct (print_fixed_number "Standard Deviation: " 2 _ x6 (F _ _ E6) N6)
    as [t6 P6].
  destruct (print_fixed_number "Consistency Score: " 2 _ x7 (F _ _ E7) N7)
    as [t7 P7].
  destruct (format_value_finite 1 x1 N1) as [a1 A1].
  eexists. exists (x1, ("Avg: " ++ a1)%string), problems, strengths.
  split; [|split; [|split; [exact (F _ _ Ep)|split; [exact (F _ _ Et)|]]]].
  - unfold print_summary.
    rewrite P1, P2, P3, P4, P5, P6, P7.
    rewrite (F _ _ Elo), (F _ _ Ehi), (F _ _ Ep), (F _ _ Et).
    cbn [then_ eval bind iterate print].
    rewrite !(for_each_print (fun x => ("- " ++ py_str repr_other x)%string)).
    reflexivity.
  - unfold average_line. rewrite (F _ _ E1). simpl. now rewrite A1.
  - split; [reflexivity|].
    simpl. rewrite length_app. simpl. unfold dashed.
    rewrite !length_map. lia.
Qed.

(** The three rolling plots are given lists of one length from three runs
    on. *)
Lemma plots_return {datetime : Type}
  (fromisoformat : string -> result datetime) (runs : list value)
  (s : series datetime) :
  forallb (well_formed_run fromisoformat) runs = true ->
  3 <= List.length runs ->
  extractSeries fromisoformat (VList runs) = Ok s ->
  exists r,
    rolling s = Ok r
    /\ plot (snd r) (fst (fst (fst r))) = Ok tt
    /\ plot (snd r) (snd (fst (fst r))) = Ok tt
    /\ plot (snd r) (snd (fst r)) = Ok tt.
Proof.
  intros Hwf Hn Hs.
  assert (Hne : runs <> []) by (intros ->; simpl in Hn; lia).
  destruct (rolling_lengths fromisoformat runs s Hwf Hne Hs)
    as (o1 & o2 & o3 & rn & Er & L1 & L2 & L3 & Ln & _).
  exists (o1, o2, o3, rn). split; [exact Er|].
  assert (W : rolling_width (List.length runs) = List.length runs - 2).
  { unfold rolling_width. change (Z.to_nat window_size) with 3.
    destruct (Nat.ltb_spec (List.length runs) 3); lia. }
  unfold plot. cbn [fst snd].
  rewrite Ln, L1, L2, L3, W, Nat.eqb_refl. auto.
Qed.

(** X11: on a document with at least three runs, all with finite machine
    numbers, and a well-formed summary, the script ends without an
    exception and prints the line of the saved plot, ten lines of figures,
    the heading of the problems followed by one dashed line for each
    problem in order, then the heading of the strengths and one dashed line
    for each strength. *)
Theorem script_well_formed
  (datetime : Type) (fromisoformat : string -> result datetime)
  (repr_other : value -> string) (json_file_path : string)
  (items : list (string * value)) (runs : list value) :
  lookup "runs" items = Some (VList runs) ->
  forallb (finite_run fromisoformat) runs = true ->
  3 <= List.length runs ->
  well_formed_summary (VDict items) = true ->
  exists lines problems strengths,
    script fromisoformat repr_other json_file_path (Ok (VDict items))
    = (("Plot saved to: " ++ output_image_path json_file_path)%string
       :: lines, Ok tt)
    /\ summary_field (VDict items) "mainProblems" = Ok (VList problems)
    /\ summary_field (VDict items) "strengths" = Ok (VList strengths)
    /\ skipn 10 lines
       = (newline ++ "Main Problems:")%string :: dashed repr_other problems
         ++ (newline ++ "Strengths:")%string :: dashed repr_other strengths
    /\ List.length lines
       = 12 + List.length problems + List.length strengths.
Proof.
  intros Hr Hfin Hn Hsum.
  pose proof (finite_runs_well_formed fromisoformat runs Hfin) as Hwf.
  destruct (extractSeries_total fromisoformat runs Hwf) as [s Hs].
  destruct (plots_return fromisoformat runs s Hwf Hn Hs)
    as (r & Er & P1 & P2 & P3).
  destruct (print_summary_returns repr_other json_file_path (VDict items)
              Hsum) as (lines & avg & problems & strengths
                        & Hp & Ha & Eps & Ess & Hskip & Hlen).
  exists lines, problems, strengths.
  split; [|auto].
  assert (Hparse : parse fromisoformat (Ok (VDict items))
                   = Ok (VDict items, s)).
  { unfold parse. simpl. rewrite Hr. simpl. now rewrite Hs. }
  unfold script.
  rewrite (then_eval _ _ _ Hparse). cbn [fst snd].
  rewrite (then_eval _ _ _ Er).
  rewrite (then_eval _ _ _ Ha), (then_eval _ _ _ Ha).
  rewrite (then_eval _ _ _ P1), (then_eval _ _ _ Ha).
  rewrite (then_eval _ _ _ P2), (then_eval _ _ _ P3).
  rewrite then_print, Hp. reflexivity.
Qed.

Lemma script_well_formed_witness :
  exists lines problems strengths,
    script keep_text no_repr sample_path (Ok (VDict three_items))
    = (("Plot saved to: " ++ output_image_path sample_path)%string
       :: lines, Ok tt)
    /\ summary_field (VDict three_items) "mainProblems"
       = Ok (VList problems)
    /\ summary_field (VDict three_items) "strengths" = Ok (VList strengths)
    /\ skipn 10 lines
       = (newline ++ "Main Problems:")%string :: dashed no_repr problems
         ++ (newline ++ "Strengths:")%string :: dashed no_repr strengths
    /\ List.length lines
       = 12 + List.length problems + List.length strengths.
Proof.
  apply (script_well_formed string keep_text no_repr sample_path three_items
           three_runs).
  - reflexivity.
  - vm_compute. reflexivity.
  - simpl. lia.
  - vm_compute. reflexivity.
Defined.

(** ** The printed lines and the summary *)

Lemma print_summary_reads_summary
  (repr_other : value -> string) (json_file_path : string)
  (data data' : value) :
  getitem data "summary" = getitem data' "summary" ->
  print_summary repr_other json_file_path data
  = print_summary repr_other json_file_path data'.
Proof.
  intros H. unfold print_summary, average_metric, summary_field.
  now rewrite H.
Qed.

(** X12: two documents with the same summary on which the script runs to
    its end print the same lines, whatever their runs: no printed figure is
    computed from the runs.  (The runs still decide whether the script
    reaches the summary at all.) *)
Theorem script_prints_summary_only
  (datetime : Type) (fromisoformat : string -> result datetime)
  (repr_other : value -> string) (json_file_path : string)
  (items items' : list (string * value)) (out out' : list string) :
  lookup "summary" items = lookup "summary" items' ->
  script fromisoformat repr_other json_file_path (Ok (VDict items))
  = (out, Ok tt) ->
  script fromisoformat repr_other json_file_path (Ok (VDict items'))
  = (out', Ok tt) ->
  out = out'.
Proof.
  intros Hsum H H'.
  apply script_output in H as (data & s & r & lines & Hp & _ & _ & Hl & ->).
  apply script_output in H'
    as (data' & s' & r' & lines' & Hp' & _ & _ & Hl' & ->).
  assert (D : forall its d (t : series datetime),
             parse fromisoformat (Ok (VDict its)) = Ok (d, t) ->
             d = VDict its).
  { intros its d t E. unfold parse in E. simpl in E.
    apply bind_Ok in E as (rs & _ & E).
    apply bind_Ok in E as (t' & _ & E). congruence. }
  apply D in Hp. apply D in Hp'. subst data data'.
  rewrite (print_summary_reads_summary repr_other json_file_path
             (VDict items) (VDict items')) in Hl.
  - congruence.
  - simpl. now rewrite Hsum.
Qed.

Lemma script_prints_summary_only_witness :
  script keep_text no_repr sample_path (Ok (VDict three_items))
  = script keep_text no_repr sample_path (Ok (VDict other_items))
  /\ three_runs <> other_runs.
Proof.
  split; [|discriminate].
  destruct (script keep_text no_repr sample_path (Ok (VDict three_items)))
    as [out [[]|e]] eqn:E;
    [|vm_compute in E; discriminate E].
  destruct (script keep_text no_repr sample_path (Ok (VDict other_items)))
    as [out' [[]|e']] eqn:E';
    [|vm_compute in E'; discriminate E'].
  f_equal.
  apply (script_prints_summary_only string keep_text no_repr sample_path
           three_items other_items out out'); [reflexivity|exact E|exact E'].
Defined.

(** ** The selection and the order in which glob lists the files *)

Lemma first_max_greatest {A : Type} (key : A -> string) (l : list A) (p : A) :
  first_max key l = Some p ->
  In p l /\ Forall (fun x => String.leb (key x) (key p) = true) l.
Proof.
  intros Hp.
  destruct (first_max_spec key l p Hp) as (before & after & -> & Hb & Ha).
  split; [apply in_elt|].
  apply Forall_app. split.
  - eapply Forall_impl; [|exact Hb]. intros x Hx. now apply ltb_leb.
  - constructor; [apply leb_refl|exact Ha].
Qed.

Lemma NoDup_map_injective {A B : Type} (f : A -> B) (l : list A) (x y : A) :
  NoDup (map f l) -> In x l -> In y l -> f x = f y -> x = y.
Proof.
  induction l as [|a l IH]; simpl; [contradiction|].
  intros Hnd Hx Hy E. inversion Hnd as [|? ? Hna Hnd']; subst.
  destruct Hx as [->|Hx], Hy as [->|Hy]; auto.
  - exfalso. apply Hna. rewrite E. now apply in_map.
  - exfalso. apply Hna. rewrite <- E. now apply in_map.
Qed.

(** X13: when no two candidates have the same key, the selected file does
    not depend on the order in which [glob] lists the candidates. *)
Theorem selectLatestFile_order_independent (eval_files listing : list string) :
  Permutation eval_files listing ->
  NoDup (map sort_key eval_files) ->
  selectLatestFile eval_files = selectLatestFile listing.
Proof.
  intros Hperm Hnd.
  destruct eval_files as [|x l].
  { apply Permutation_nil in Hperm. now subst. }
  destruct listing as [|x' l'].
  { apply Permutation_sym, Permutation_nil in Hperm. discriminate. }
  destruct (first_max_nonempty sort_key x l) as [p Hp].
  destruct (first_max_nonempty sort_key x' l') as [p' Hp'].
  rewrite (selectLatestFile_first_max _ _ Hp).
  rewrite (selectLatestFile_first_max _ _ Hp').
  destruct (first_max_greatest sort_key _ _ Hp) as [Hin Hmax].
  destruct (first_max_greatest sort_key _ _ Hp') as [Hin' Hmax'].
  rewrite Forall_forall in Hmax, Hmax'.
  assert (Hp'l : In p' (x :: l))
    by (eapply Permutation_in; [apply Permutation_sym, Hperm|exact Hin']).
  assert (Hpl' : In p (x' :: l'))
    by (eapply Permutation_in; [exact Hperm|exact Hin]).
  f_equal.
  apply (NoDup_map_injective sort_key (x :: l)); auto.
  apply String.leb_antisym; auto.
Qed.

Lemma selectLatestFile_order_independent_witness :
  selectLatestFile
    ["eval/eval-results-a-0-100.json"; "eval/eval-results-b-1-300.json";
     "eval/eval-results-c-2-200.json"]
  = selectLatestFile
      ["eval/eval-results-c-2-200.json"; "eval/eval-results-a-0-100.json";
       "eval/eval-results-b-1-300.json"].
Proof.
  apply selectLatestFile_order_independent.
  - eapply perm_trans; [apply perm_skip, perm_swap|].
    apply perm_swap.
  - repeat constructor; simpl; intuition discriminate.
Defined.
